(** * PaneviewComponent (packages/splitview/src/paneview/paneviewComponent.ts)

    A shallow embedding of the paneview orchestrator: the component keeps a
    reference to a Layout Engine ([Paneview]) and talks to it through a
    narrow interface, panels ([PaneFramework]) are mutable objects shared
    between the orchestrator and the engine, and every method is a
    computation in a state and exception monad (a JavaScript exception
    leaves the mutations done before it in place). *)

From Stdlib Require Import ZArith List String Bool Lia.
Import ListNotations.
Open Scope string_scope.
Open Scope list_scope.
Open Scope Z_scope.

(** ** Values of the program *)

Inductive Orientation := HORIZONTAL | VERTICAL.

Definition orientation_eqb (a b : Orientation) : bool :=
  match a, b with
  | HORIZONTAL, HORIZONTAL | VERTICAL, VERTICAL => true
  | _, _ => false
  end.

(** [Sizing | number], the size argument of [Paneview.addPane]. *)
Inductive Sizing := SizeNumber (px : Z) | Distribute.

(** Caller-supplied [params] objects, kept opaque. *)
Definition Params := list (string * string).

Inductive Err :=
| ResolutionError (kind : string)
| EngineError (msg : string).

Inductive res (A : Type) := Ok (a : A) | Throw (e : Err).
Arguments Ok {A} a.
Arguments Throw {A} e.

(** A renderer produced by the Component Factory. *)
Record Renderer := { r_id : string; r_kind : string }.

(** The header part of a panel: the [DefaultHeader] class of the file, with
    its [apiRef.api] (the panel api, named by the panel it belongs to) and
    the text of its element, or a renderer from the factory. *)
Inductive HeaderPart :=
| DefaultHeader (apiRef : option nat) (textContent : string)
| CustomHeader (r : Renderer).

(** A [PaneFramework] object (a [PaneviewPanel]). *)
Record PaneFramework := {
  pf_id : string;
  pf_component : string;
  pf_headerComponent : option string;
  pf_header : HeaderPart;
  pf_body : Renderer;
  pf_orientation : Orientation;
  pf_title : string;
  pf_params : Params;
  pf_minimumBodySize : option Z;
  pf_maximumBodySize : option Z;
  pf_expanded : bool;
  pf_initialized : bool;
  pf_disposed : bool }.

(** [PanePanelInitParameter] as built by [addPanel] and [fromJSON]
    ([containerApi] is a fresh [PaneviewApi(this)] and carries no data). *)
Record InitParams := {
  ip_params : Params;
  ip_minimumBodySize : option Z;
  ip_maximumBodySize : option Z;
  ip_isExpanded : option bool;
  ip_title : string }.

(** [AddPaneviewCompponentOptions]; optional fields are [option]. *)
Record AddPaneviewComponentOptions := {
  ao_id : string;
  ao_component : string;
  ao_headerComponent : option string;
  ao_params : option Params;
  ao_minimumBodySize : option Z;
  ao_maximumBodySize : option Z;
  ao_isExpanded : option bool;
  ao_title : string;
  ao_index : option Z;
  ao_size : option Z }.

(** [PaneviewComponentOptions]: the registries read by [createComponent]
    ([components ||= {}] in the constructor makes them total). *)
Record ComponentOptions := {
  components : list string;
  frameworkComponents : list string;
  headerComponents : list string;
  headerframeworkComponents : list string }.

(** [SerializedPaneviewPanel] and [SerializedPaneview]. The optional [snap]
    and [priority] fields are neither written by [toJSON] nor read by
    [fromJSON] and are left out. *)
Record SerializedData := {
  sd_id : string;
  sd_component : string;
  sd_title : string;
  sd_headerComponent : option string;
  sd_params : option Params;
  sd_state : option Params }.

Record SerializedPaneviewPanel := {
  spp_size : Z;
  spp_data : SerializedData;
  spp_minimumSize : option Z;
  spp_maximumSize : option Z;
  spp_expanded : option bool }.

Record SerializedPaneview := {
  sp_size : Z;
  sp_views : list SerializedPaneviewPanel }.

(** Observable effects, in the order they happen. *)
Inductive Event :=
| EvAddPane (uid : nat) (size : Sizing) (index : option Z)
| EvRemovePane (index : Z)
| EvMoveView (from to : Z)
| EvLayout (size orthogonalSize : Z)
| EvDisposeEngine
| EvReadBoundingRect
| EvInit (uid : nat)
| EvReadExpanded (uid : nat)
| EvSetExpanded (uid : nat) (v : bool).

(** ** The Layout Engine interface

    [Paneview] (paneview/paneview.ts) is not part of this source tree; the
    spec (section 6) gives only its contract, which is what the orchestrator
    may rely on. Its internal state is abstract; the orientation it was
    built with and its disposal are kept next to it in [Paneview] below. *)
Class LayoutEngine (Core : Type) := {
  engine_empty : Core;
  engine_fromDescriptor : Z -> list (nat * Z) -> Core;
  getPanes : Core -> list nat;
  getViewSize : Core -> Z -> Z;
  engine_size : Core -> Z;
  engine_orthogonalSize : Core -> Z;
  addPane : nat -> Sizing -> option Z -> Core -> res Core;
  removePane : Z -> Core -> res Core;
  moveView : Z -> Z -> Core -> res Core;
  engine_layout : Z -> Z -> Core -> Core }.

Record Paneview (Core : Type) := {
  pv_orientation : Orientation;
  pv_disposed : bool;
  pv_core : Core }.
Arguments pv_orientation {Core} p.
Arguments pv_disposed {Core} p.
Arguments pv_core {Core} p.
Arguments Build_Paneview {Core} _ _ _.

(** Modelled from the spec: [createComponent] of panel/componentFactory.ts
    (section 4.4): resolves [kind] in either registry, and fails with a
    [ResolutionError] when it matches no entry. *)
Definition createComponent (id kind : string) (comps fcomps : list string)
  : res Renderer :=
  if existsb (String.eqb kind) comps || existsb (String.eqb kind) fcomps
  then Ok {| r_id := id; r_kind := kind |}
  else Throw (ResolutionError kind).

(** JavaScript truthiness of an optional string ([if (options.headerComponent)]). *)
Definition truthy_string (o : option string) : bool :=
  match o with Some s => negb (String.eqb s "") | None => false end.

(** [!!view.expanded] *)
Definition truthy_bool (o : option bool) : bool :=
  match o with Some b => b | None => false end.

Section Orchestrator.

Context {Core : Type} `{LayoutEngine Core}.

(** The state of the program: the DOM parent of the root element (its
    bounding rectangle, [None] when detached), the options object, the
    current Layout Engine, the heap of panel objects, the event trace and the
    host's queue of [setTimeout] tasks. *)
Record St := {
  st_parentRect : option (Z * Z);
  st_options : ComponentOptions;
  st_paneview : Paneview Core;
  st_heap : nat -> PaneFramework;
  st_next : nat;
  st_trace : list Event;
  st_tasks : list (list (nat * InitParams)) }.

Definition M (A : Type) := St -> St * res A.

Definition ret {A} (a : A) : M A := fun st => (st, Ok a).

Definition bind {A B} (m : M A) (k : A -> M B) : M B := fun st =>
  match m st with
  | (st1, Ok a) => k a st1
  | (st1, Throw e) => (st1, Throw e)
  end.

Definition lift {A} (r : res A) : M A := fun st => (st, r).

Definition gets {A} (f : St -> A) : M A := fun st => (st, Ok (f st)).

End Orchestrator.

Notation "x <- m ;; k" := (bind m (fun x => k))
  (at level 61, m at next level, right associativity).
Notation "m ;; k" := (bind m (fun _ => k))
  (at level 61, right associativity).

Section Operations.

Context {Core : Type} `{LayoutEngine Core}.

Local Abbreviation St := (@St Core).
Local Abbreviation M := (@M Core).

(** *** Updating the state *)

Definition with_paneview (pv : Paneview Core) (st : St) : St :=
  {| st_parentRect := st_parentRect st; st_options := st_options st;
     st_paneview := pv; st_heap := st_heap st; st_next := st_next st;
     st_trace := st_trace st; st_tasks := st_tasks st |}.

Definition with_heap (hp : nat -> PaneFramework) (next : nat) (st : St) : St :=
  {| st_parentRect := st_parentRect st; st_options := st_options st;
     st_paneview := st_paneview st; st_heap := hp; st_next := next;
     st_trace := st_trace st; st_tasks := st_tasks st |}.

Definition with_trace (tr : list Event) (st : St) : St :=
  {| st_parentRect := st_parentRect st; st_options := st_options st;
     st_paneview := st_paneview st; st_heap := st_heap st;
     st_next := st_next st; st_trace := tr; st_tasks := st_tasks st |}.

Definition with_tasks (ts : list (list (nat * InitParams))) (st : St) : St :=
  {| st_parentRect := st_parentRect st; st_options := st_options st;
     st_paneview := st_paneview st; st_heap := st_heap st;
     st_next := st_next st; st_trace := st_trace st; st_tasks := ts |}.

Definition with_parent (r : option (Z * Z)) (st : St) : St :=
  {| st_parentRect := r; st_options := st_options st;
     st_paneview := st_paneview st; st_heap := st_heap st;
     st_next := st_next st; st_trace := st_trace st; st_tasks := st_tasks st |}.

Definition emit (e : Event) : M unit := fun st =>
  (with_trace (st_trace st ++ [e]) st, Ok tt).

Definition heap_update (u : nat) (p : PaneFramework) (hp : nat -> PaneFramework)
  : nat -> PaneFramework :=
  fun v => if Nat.eqb v u then p else hp v.

Definition write_panel (u : nat) (p : PaneFramework) : M unit := fun st =>
  (with_heap (heap_update u p (st_heap st)) (st_next st) st, Ok tt).

Definition read_panel (u : nat) : M PaneFramework := gets (fun st => st_heap st u).

(** *** Calls on the current Layout Engine ([this.paneview.xxx(...)]) *)

Definition set_core (c : Core) : M unit := fun st =>
  let pv := st_paneview st in
  (with_paneview (Build_Paneview (pv_orientation pv) (pv_disposed pv) c) st, Ok tt).

Definition core_now : M Core := gets (fun st => pv_core (st_paneview st)).

Definition paneview_addPane (u : nat) (size : Sizing) (index : option Z) : M unit :=
  emit (EvAddPane u size index) ;;
  c <- core_now ;;
  c' <- lift (addPane u size index c) ;;
  set_core c'.

Definition paneview_removePane (index : Z) : M unit :=
  emit (EvRemovePane index) ;;
  c <- core_now ;;
  c' <- lift (removePane index c) ;;
  set_core c'.

Definition paneview_moveView (from to : Z) : M unit :=
  emit (EvMoveView from to) ;;
  c <- core_now ;;
  c' <- lift (moveView from to c) ;;
  set_core c'.

Definition paneview_layout (size orthogonalSize : Z) : M unit :=
  emit (EvLayout size orthogonalSize) ;;
  c <- core_now ;;
  set_core (engine_layout size orthogonalSize c).

(** Modelled from the spec: disposing a panel disposes the renderers it
    owns (section 2); the panel object is marked disposed. *)
Definition dispose_panel (pf : PaneFramework) : PaneFramework :=
  {| pf_id := pf_id pf; pf_component := pf_component pf;
     pf_headerComponent := pf_headerComponent pf; pf_header := pf_header pf;
     pf_body := pf_body pf; pf_orientation := pf_orientation pf;
     pf_title := pf_title pf; pf_params := pf_params pf;
     pf_minimumBodySize := pf_minimumBodySize pf;
     pf_maximumBodySize := pf_maximumBodySize pf;
     pf_expanded := pf_expanded pf; pf_initialized := pf_initialized pf;
     pf_disposed := true |}.

Definition dispose_panels (us : list nat) (hp : nat -> PaneFramework) : nat -> PaneFramework :=
  fun v => if existsb (Nat.eqb v) us then dispose_panel (hp v) else hp v.

(** Modelled from the spec: [Paneview.dispose] (section 3: the previous
    Layout Engine instance and the previous generation of panels, the panes
    it holds, are fully disposed). *)
Definition paneview_dispose : M unit :=
  emit EvDisposeEngine ;;
  fun st =>
    let pv := st_paneview st in
    (with_paneview (Build_Paneview (pv_orientation pv) true (pv_core pv))
       (with_heap (dispose_panels (getPanes (pv_core pv)) (st_heap st)) (st_next st) st),
     Ok tt).

(** *** Panels *)

(** [new PaneFramework({...})]: a fresh panel object on the heap.
    Modelled from the spec: the [PaneviewPanel] constructor (not in this
    source tree) leaves the panel uninitialised and collapsed. *)
Definition new_PaneFramework (id component : string) (headerComponent : option string)
  (header : HeaderPart) (body : Renderer) (orientation : Orientation) : M nat :=
  fun st =>
    let u := st_next st in
    let p := {| pf_id := id; pf_component := component;
                pf_headerComponent := headerComponent; pf_header := header;
                pf_body := body; pf_orientation := orientation; pf_title := "";
                pf_params := []; pf_minimumBodySize := None;
                pf_maximumBodySize := None; pf_expanded := false;
                pf_initialized := false; pf_disposed := false |} in
    (with_heap (heap_update u p (st_heap st)) (S u) st, Ok u).

(** [DefaultHeader.init]: [apiRef.api = params.api; textContent = title]. *)
Definition header_init (owner : nat) (title : string) (h : HeaderPart) : HeaderPart :=
  match h with
  | DefaultHeader _ _ => DefaultHeader (Some owner) title
  | CustomHeader r => CustomHeader r
  end.

(** Modelled from the spec: [PaneviewPanel.init] (section 4.2): records the
    parameters on the panel, forwards to both renderers (the header gets the
    panel api) and takes the expansion flag, collapsed when absent. *)
Definition panel_init (u : nat) (p : InitParams) : M unit :=
  emit (EvInit u) ;;
  pf <- read_panel u ;;
  write_panel u
    {| pf_id := pf_id pf; pf_component := pf_component pf;
       pf_headerComponent := pf_headerComponent pf;
       pf_header := header_init u (ip_title p) (pf_header pf);
       pf_body := pf_body pf; pf_orientation := pf_orientation pf;
       pf_title := ip_title p; pf_params := ip_params p;
       pf_minimumBodySize := ip_minimumBodySize p;
       pf_maximumBodySize := ip_maximumBodySize p;
       pf_expanded := truthy_bool (ip_isExpanded p);
       pf_initialized := true; pf_disposed := pf_disposed pf |}.

(** [view.orientation = this.paneview.orientation] *)
Definition set_panel_orientation (u : nat) (o : Orientation) : M unit :=
  pf <- read_panel u ;;
  write_panel u
    {| pf_id := pf_id pf; pf_component := pf_component pf;
       pf_headerComponent := pf_headerComponent pf; pf_header := pf_header pf;
       pf_body := pf_body pf; pf_orientation := o; pf_title := pf_title pf;
       pf_params := pf_params pf; pf_minimumBodySize := pf_minimumBodySize pf;
       pf_maximumBodySize := pf_maximumBodySize pf;
       pf_expanded := pf_expanded pf; pf_initialized := pf_initialized pf;
       pf_disposed := pf_disposed pf |}.

(** Modelled from the spec: [PanePanelApi.setExpanded] writes the panel's
    expansion flag (section 3: the state is owned by the panel). *)
Definition api_setExpanded (u : nat) (v : bool) : M unit :=
  emit (EvSetExpanded u v) ;;
  pf <- read_panel u ;;
  write_panel u
    {| pf_id := pf_id pf; pf_component := pf_component pf;
       pf_headerComponent := pf_headerComponent pf; pf_header := pf_header pf;
       pf_body := pf_body pf; pf_orientation := pf_orientation pf;
       pf_title := pf_title pf; pf_params := pf_params pf;
       pf_minimumBodySize := pf_minimumBodySize pf;
       pf_maximumBodySize := pf_maximumBodySize pf;
       pf_expanded := v; pf_initialized := pf_initialized pf;
       pf_disposed := pf_disposed pf |}.

(** Modelled from the spec: [PanePanelApi.isExpanded] reads the flag. *)
Definition api_isExpanded (u : nat) : M bool :=
  emit (EvReadExpanded u) ;;
  pf <- read_panel u ;;
  ret (pf_expanded pf).

End Operations.

Section Component.

Context {Core : Type} `{LayoutEngine Core}.

Local Abbreviation St := (@St Core).
Local Abbreviation M := (@M Core).

(** The disposable returned by [addPanel]. *)
Record IDisposable := { dispose : St -> St }.

Fixpoint mapM {A B} (f : A -> M B) (l : list A) : M (list B) :=
  match l with
  | [] => ret []
  | x :: l' => y <- f x ;; ys <- mapM f l' ;; ret (y :: ys)
  end.

Definition set_paneview (pv : Paneview Core) : M unit := fun st =>
  (with_paneview pv st, Ok tt).

(** The header part chosen by [addPanel] and [fromJSON]:
    [if (headerComponent) createComponent(...) else new DefaultHeader()]. *)
Definition make_header (id : string) (headerComponent : option string) : M HeaderPart :=
  opts <- gets st_options ;;
  match headerComponent with
  | Some hc =>
      if truthy_string (Some hc)
      then r <- lift (createComponent id hc (headerComponents opts)
                                      (headerframeworkComponents opts)) ;;
           ret (CustomHeader r)
      else ret (DefaultHeader None "")
  | None => ret (DefaultHeader None "")
  end.

(** [PaneviewComponent.addPanel] *)
Definition addPanel (options : AddPaneviewComponentOptions) : M IDisposable :=
  opts <- gets st_options ;;
  body <- lift (createComponent (ao_id options) (ao_component options)
                                (components opts) (frameworkComponents opts)) ;;
  header <- make_header (ao_id options) (ao_headerComponent options) ;;
  view <- new_PaneFramework (ao_id options) (ao_component options)
                            (ao_headerComponent options) header body VERTICAL ;;
  let size := match ao_size options with
              | Some s => SizeNumber s
              | None => Distribute
              end in
  let index := match ao_index options with
               | Some i => Some i
               | None => None
               end in
  paneview_addPane view size index ;;
  panel_init view
    {| ip_params := match ao_params options with Some p => p | None => [] end;
       ip_minimumBodySize := ao_minimumBodySize options;
       ip_maximumBodySize := ao_maximumBodySize options;
       ip_isExpanded := ao_isExpanded options;
       ip_title := ao_title options |} ;;
  pv <- gets st_paneview ;;
  set_panel_orientation view (pv_orientation pv) ;;
  ret {| dispose := fun s => s |}.

(** [PaneviewComponent.getPanels] *)
Definition getPanels : M (list nat) :=
  gets (fun st => getPanes (pv_core (st_paneview st))).

(** [Array.prototype.findIndex] with [===] on panel objects. *)
Fixpoint findIndex_from (u : nat) (l : list nat) (i : Z) : Z :=
  match l with
  | [] => -1
  | x :: l' => if Nat.eqb x u then i else findIndex_from u l' (i + 1)
  end.

Definition findIndex (u : nat) (l : list nat) : Z := findIndex_from u l 0.

(** [PaneviewComponent.removePanel] *)
Definition removePanel (panel : nat) : M unit :=
  views <- getPanels ;;
  let index := findIndex panel views in
  paneview_removePane index.

(** [PaneviewComponent.movePanel] *)
Definition movePanel (from to : Z) : M unit := paneview_moveView from to.

(** [PaneviewComponent.getPanel] *)
Definition getPanel (id : string) : M (option nat) :=
  st <- gets (fun st => st) ;;
  panels <- getPanels ;;
  ret (find (fun u => String.eqb (pf_id (st_heap st u)) id) panels).

(** The [height] and [width] getters. *)
Definition height (st : St) : Z :=
  let pv := st_paneview st in
  if orientation_eqb (pv_orientation pv) HORIZONTAL
  then engine_orthogonalSize (pv_core pv) else engine_size (pv_core pv).

Definition width (st : St) : Z :=
  let pv := st_paneview st in
  if orientation_eqb (pv_orientation pv) HORIZONTAL
  then engine_size (pv_core pv) else engine_orthogonalSize (pv_core pv).

(** [PaneviewComponent.layout] *)
Definition layout (width height : Z) : M unit :=
  pv <- gets st_paneview ;;
  let '(size, orthogonalSize) :=
    if orientation_eqb (pv_orientation pv) HORIZONTAL
    then (width, height) else (height, width) in
  paneview_layout size orthogonalSize.

(** [PaneviewComponent.resizeToFit]: [getBoundingClientRect] on the parent
    element is an observable read. *)
Definition resizeToFit : M unit :=
  parent <- gets st_parentRect ;;
  match parent with
  | None => ret tt
  | Some (w, h) => emit EvReadBoundingRect ;; layout w h
  end.

(** Modelled from the spec: [PaneviewPanel.toJSON] (section 4.2). *)
Definition panel_toJSON (p : PaneFramework) : SerializedData :=
  {| sd_id := pf_id p; sd_component := pf_component p; sd_title := pf_title p;
     sd_headerComponent := pf_headerComponent p; sd_params := Some (pf_params p);
     sd_state := None |}.

Fixpoint mapi_from {A B} (f : nat -> A -> B) (i : nat) (l : list A) : list B :=
  match l with
  | [] => []
  | x :: l' => f i x :: mapi_from f (S i) l'
  end.

(** [PaneviewComponent.toJSON]: reads the state, changes nothing. *)
Definition toJSON (st : St) : SerializedPaneview :=
  let pv := st_paneview st in
  {| sp_views :=
       mapi_from (fun i u =>
         let view := st_heap st u in
         {| spp_size := getViewSize (pv_core pv) (Z.of_nat i);
            spp_data := panel_toJSON view;
            spp_minimumSize := pf_minimumBodySize view;
            spp_maximumSize := pf_maximumBodySize view;
            spp_expanded := Some (pf_expanded view) |}) 0 (getPanes (pv_core pv));
     sp_size := engine_size (pv_core pv) |}.

(** The body of [views.map(...)] in [fromJSON]: the panel built for one
    serialized view, and the closure pushed on [queue]. *)
Definition build_view (view : SerializedPaneviewPanel)
  : M ((nat * Z) * (nat * InitParams)) :=
  let data := spp_data view in
  opts <- gets st_options ;;
  body <- lift (createComponent (sd_id data) (sd_component data)
                                (components opts) (frameworkComponents opts)) ;;
  header <- make_header (sd_id data) (sd_headerComponent data) ;;
  panel <- new_PaneFramework (sd_id data) (sd_component data)
                             (sd_headerComponent data) header body VERTICAL ;;
  ret ((panel, spp_size view),
       (panel, {| ip_params := match sd_params data with Some p => p | None => [] end;
                  ip_minimumBodySize := spp_minimumSize view;
                  ip_maximumBodySize := spp_maximumSize view;
                  ip_isExpanded := Some (truthy_bool (spp_expanded view));
                  ip_title := sd_title data |})).

(** [queue.forEach((f) => f())] *)
Fixpoint run_queue (queue : list (nat * InitParams)) : M unit :=
  match queue with
  | [] => ret tt
  | (u, p) :: queue' => panel_init u p ;; run_queue queue'
  end.

(** [setTimeout(task, 0)]: the task joins the host's task queue. *)
Definition setTimeout (task : list (nat * InitParams)) : M unit := fun st =>
  (with_tasks (st_tasks st ++ [task]) st, Ok tt).

(** [PaneviewComponent.fromJSON] *)
Definition fromJSON (data : SerializedPaneview) (deferComponentLayout : option bool)
  : M unit :=
  paneview_dispose ;;
  built <- mapM build_view (sp_views data) ;;
  let queue := map snd built in
  set_paneview (Build_Paneview VERTICAL false
                  (engine_fromDescriptor (sp_size data) (map fst built))) ;;
  w <- gets width ;;
  h <- gets height ;;
  layout w h ;;
  if truthy_bool deferComponentLayout then setTimeout queue else run_queue queue.

(** One turn of the host's event loop: the oldest [setTimeout] task runs. *)
Definition run_next_task (st : St) : St :=
  match st_tasks st with
  | [] => st
  | task :: rest => fst (run_queue task (with_tasks rest st))
  end.

(** The click listener of [DefaultHeader]:
    [this.apiRef.api?.setExpanded(!this.apiRef.api.isExpanded)], for the
    header of panel [owner]. The listener is one of the header's disposables
    ([addDisposables]); modelled from the spec, a disposed panel has
    disposed its header, which removed the listener, so a click on it does
    nothing. *)
Definition defaultHeader_click (owner : nat) : M unit :=
  pf <- read_panel owner ;;
  if pf_disposed pf then ret tt else
  match pf_header pf with
  | DefaultHeader apiRef _ =>
      match apiRef with
      | Some api => e <- api_isExpanded api ;; api_setExpanded api (negb e)
      | None => ret tt
      end
  | CustomHeader _ => ret tt
  end.

(** *** Runs of the component *)

Definition blank_panel : PaneFramework :=
  {| pf_id := ""; pf_component := ""; pf_headerComponent := None;
     pf_header := DefaultHeader None ""; pf_body := {| r_id := ""; r_kind := "" |};
     pf_orientation := VERTICAL; pf_title := ""; pf_params := [];
     pf_minimumBodySize := None; pf_maximumBodySize := None;
     pf_expanded := false; pf_initialized := false; pf_disposed := false |}.

(** [new PaneviewComponent(element, options)] *)
Definition PaneviewComponent_new (parent : option (Z * Z)) (opts : ComponentOptions) : St :=
  {| st_parentRect := parent; st_options := opts;
     st_paneview := Build_Paneview VERTICAL false engine_empty;
     st_heap := fun _ => blank_panel; st_next := 0%nat; st_trace := [];
     st_tasks := [] |}.

(** What a caller or the host may do next; a call that throws leaves the
    state as the exception found it. *)
Inductive Op :=
| OpAddPanel (o : AddPaneviewComponentOptions)
| OpRemovePanel (panel : nat)
| OpMovePanel (from to : Z)
| OpLayout (w h : Z)
| OpResizeToFit
| OpFromJSON (d : SerializedPaneview) (defer : option bool)
| OpRunTask
| OpHeaderClick (owner : nat)
| OpSetParent (r : option (Z * Z)).

Definition exec (op : Op) (st : St) : St :=
  match op with
  | OpAddPanel o => fst (addPanel o st)
  | OpRemovePanel u => fst (removePanel u st)
  | OpMovePanel f t => fst (movePanel f t st)
  | OpLayout w h => fst (layout w h st)
  | OpResizeToFit => fst (resizeToFit st)
  | OpFromJSON d b => fst (fromJSON d b st)
  | OpRunTask => run_next_task st
  | OpHeaderClick u => fst (defaultHeader_click u st)
  | OpSetParent r => with_parent r st
  end.

Definition run_ops (ops : list Op) (st : St) : St :=
  fold_left (fun s op => exec op s) ops st.

Definition reachable (st : St) : Prop :=
  exists parent opts ops, st = run_ops ops (PaneviewComponent_new parent opts).

End Component.

(** ** A concrete engine to run the model on explicit inputs

    A small list-based instance of the Layout Engine interface, used only to
    evaluate the embedding at concrete inputs (examples, witnesses and
    counterexamples); every theorem about the component below holds for
    every instance. Distribution splits the container size evenly, giving
    the remainder to the first pane; indices out of range throw. *)
Module ListEngine.

Record Core := { size : Z; orthogonalSize : Z; views : list (nat * Z) }.

Definition insert_at {A} (i : nat) (x : A) (l : list A) : list A :=
  firstn i l ++ x :: skipn i l.

Definition remove_at {A} (i : nat) (l : list A) : list A :=
  firstn i l ++ skipn (S i) l.

Definition in_range (i : Z) (n : nat) : bool := (0 <=? i) && (i <? Z.of_nat n).

Definition distribute (total : Z) (l : list (nat * Z)) : list (nat * Z) :=
  let n := Z.of_nat (List.length l) in
  match l with
  | [] => []
  | (u, _) :: rest =>
      (u, total / n + total mod n) :: map (fun '(v, _) => (v, total / n)) rest
  end.

Definition addPane (u : nat) (s : Sizing) (index : option Z) (c : Core) : res Core :=
  let i := match index with Some i => i | None => Z.of_nat (List.length (views c)) end in
  if (0 <=? i) && (i <=? Z.of_nat (List.length (views c))) then
    let vs := insert_at (Z.to_nat i) (u, match s with SizeNumber px => px | Distribute => 0 end)
                        (views c) in
    Ok {| size := size c; orthogonalSize := orthogonalSize c;
          views := match s with Distribute => distribute (size c) vs | SizeNumber _ => vs end |}
  else Throw (EngineError "Index out of bounds").

Definition removePane (i : Z) (c : Core) : res Core :=
  if in_range i (List.length (views c))
  then Ok {| size := size c; orthogonalSize := orthogonalSize c;
             views := remove_at (Z.to_nat i) (views c) |}
  else Throw (EngineError "Index out of bounds").

Definition moveView (from to : Z) (c : Core) : res Core :=
  let n := List.length (views c) in
  if in_range from n && in_range to n
  then match nth_error (views c) (Z.to_nat from) with
       | Some x => Ok {| size := size c; orthogonalSize := orthogonalSize c;
                         views := insert_at (Z.to_nat to) x
                                            (remove_at (Z.to_nat from) (views c)) |}
       | None => Throw (EngineError "Index out of bounds")
       end
  else Throw (EngineError "Index out of bounds").

#[global] Instance engine : LayoutEngine Core := {
  engine_empty := {| size := 0; orthogonalSize := 0; views := [] |};
  engine_fromDescriptor s vs := {| size := s; orthogonalSize := 0; views := vs |};
  getPanes c := map fst (views c);
  getViewSize c i := nth (Z.to_nat i) (map snd (views c)) 0;
  engine_size := size;
  engine_orthogonalSize := orthogonalSize;
  addPane := addPane;
  removePane := removePane;
  moveView := moveView;
  engine_layout s o c := {| size := s; orthogonalSize := o; views := views c |} }.

End ListEngine.

Definition text_options : ComponentOptions :=
  {| components := ["text"]; frameworkComponents := [];
     headerComponents := []; headerframeworkComponents := [] |}.

Definition add_options (id title : string) : AddPaneviewComponentOptions :=
  {| ao_id := id; ao_component := "text"; ao_headerComponent := None;
     ao_params := None; ao_minimumBodySize := None; ao_maximumBodySize := None;
     ao_isExpanded := None; ao_title := title; ao_index := None; ao_size := None |}.

Definition start : @St ListEngine.Core :=
  PaneviewComponent_new (Some (300, 600)) text_options.

Definition two_panels : @St ListEngine.Core :=
  run_ops [OpLayout 300 600; OpAddPanel (add_options "p1" "One");
           OpAddPanel (add_options "p2" "Two")] start.

Definition view_ids (d : SerializedPaneview) : list string :=
  map (fun v => sd_id (spp_data v)) (sp_views d).

Definition detached : @St ListEngine.Core := with_parent None two_panels.

Definition noop_disposable : @IDisposable ListEngine.Core := {| dispose := fun s => s |}.

(** A document naming a component no registry holds. *)
Definition bad_document : SerializedPaneview :=
  {| sp_size := 600;
     sp_views :=
       [{| spp_size := 600;
           spp_data := {| sd_id := "p9"; sd_component := "missing"; sd_title := "Nine";
                          sd_headerComponent := None; sd_params := None; sd_state := None |};
           spp_minimumSize := None; spp_maximumSize := None; spp_expanded := None |}] |}.

(** A sized panel inserted at the front. *)
Definition sized_at_front : AddPaneviewComponentOptions :=
  {| ao_id := "p0"; ao_component := "text"; ao_headerComponent := None;
     ao_params := None; ao_minimumBodySize := None; ao_maximumBodySize := None;
     ao_isExpanded := Some true; ao_title := "Zero"; ao_index := Some 0; ao_size := Some 120 |}.

(** A panel built but not yet initialised (its header's api is null). *)
Definition uninitialised : @St ListEngine.Core :=
  fst (new_PaneFramework "p9" "text" None (DefaultHeader None "") {| r_id := "p9"; r_kind := "text" |}
         VERTICAL two_panels).

(** Whether the Component Factory resolves every component a descriptor
    names, with the registries of [opts]. *)
Definition is_ok {A} (r : res A) : bool :=
  match r with Ok _ => true | Throw _ => false end.

Definition header_resolves (opts : ComponentOptions) (id : string)
  (headerComponent : option string) : bool :=
  match headerComponent with
  | Some hc =>
      if truthy_string (Some hc)
      then is_ok (createComponent id hc (headerComponents opts) (headerframeworkComponents opts))
      else true
  | None => true
  end.

Definition view_resolves (opts : ComponentOptions) (v : SerializedPaneviewPanel) : bool :=
  is_ok (createComponent (sd_id (spp_data v)) (sd_component (spp_data v))
                         (components opts) (frameworkComponents opts))
  && header_resolves opts (sd_id (spp_data v)) (sd_headerComponent (spp_data v)).

Definition options_resolve (opts : ComponentOptions) (o : AddPaneviewComponentOptions) : bool :=
  is_ok (createComponent (ao_id o) (ao_component o) (components opts) (frameworkComponents opts))
  && header_resolves opts (ao_id o) (ao_headerComponent o).

(** The [init] parameters [fromJSON] pushes on its queue for one serialized
    view: [params || {}], the view's bounds, [!!view.expanded], the title. *)
Definition serialized_init (view : SerializedPaneviewPanel) : InitParams :=
  {| ip_params := match sd_params (spp_data view) with Some p => p | None => [] end;
     ip_minimumBodySize := spp_minimumSize view;
     ip_maximumBodySize := spp_maximumSize view;
     ip_isExpanded := Some (truthy_bool (spp_expanded view));
     ip_title := sd_title (spp_data view) |}.

(** A descriptor naming a component no registry holds. *)
Definition unresolved_options : AddPaneviewComponentOptions :=
  {| ao_id := "p7"; ao_component := "missing"; ao_headerComponent := None;
     ao_params := None; ao_minimumBodySize := None; ao_maximumBodySize := None;
     ao_isExpanded := None; ao_title := "Seven"; ao_index := None; ao_size := None |}.

(** A descriptor whose index is past the end of a two-pane engine. *)
Definition at_index_five : AddPaneviewComponentOptions :=
  {| ao_id := "p5"; ao_component := "text"; ao_headerComponent := None;
     ao_params := None; ao_minimumBodySize := None; ao_maximumBodySize := None;
     ao_isExpanded := None; ao_title := "Five"; ao_index := Some 5; ao_size := None |}.

(** A descriptor whose header component is the empty string. *)
Definition empty_header_options : AddPaneviewComponentOptions :=
  {| ao_id := "p3"; ao_component := "text"; ao_headerComponent := Some "";
     ao_params := Some [("k", "v")]; ao_minimumBodySize := Some 20;
     ao_maximumBodySize := None; ao_isExpanded := None; ao_title := "Three";
     ao_index := None; ao_size := None |}.

(** The engine of [two_panels] after a third pane is distributed in. *)
Definition three_even : ListEngine.Core :=
  {| ListEngine.size := 600; ListEngine.orthogonalSize := 300;
     ListEngine.views := [(0%nat, 200); (1%nat, 200); (2%nat, 200)] |}.

(** ** Predicates on computations *)

Section Predicates.

Context {Core : Type} `{LayoutEngine Core}.

Local Abbreviation St := (@St Core).
Local Abbreviation M := (@M Core).

(** What a computation returns when it returns normally. *)
Definition returns {A} (m : M A) (P : A -> Prop) : Prop :=
  forall st st' a, m st = (st', Ok a) -> P a.

(** A computation relates, by [R], the state it starts from to the state it
    leaves (also when it throws). *)
Definition steps (R : St -> St -> Prop) {A} (m : M A) : Prop :=
  forall st, R st (fst (m st)).

(** The orientation of the current Layout Engine. *)
Definition vertical (st : St) : Prop := pv_orientation (st_paneview st) = VERTICAL.

Definition keeps_vertical (a b : St) : Prop := vertical a -> vertical b.

(** Every panel object has the orientation [VERTICAL], and so has the engine. *)
Definition panels_vertical (st : St) : Prop :=
  forall u, pf_orientation (st_heap st u) = VERTICAL.

Definition all_vertical (st : St) : Prop := vertical st /\ panels_vertical st.

Definition keeps_all_vertical (a b : St) : Prop := all_vertical a -> all_vertical b.

(** Panel objects are only ever added: the allocation counter does not go
    back and the objects allocated before are left as they were. *)
Definition heap_grows (a b : St) : Prop :=
  (st_next a <= st_next b)%nat /\
  forall u, (u < st_next a)%nat -> st_heap b u = st_heap a u.

(** The panels [fromJSON] builds for a document, and the engine it builds
    from the document's sizes. *)
Definition new_panels (d : SerializedPaneview) (st : St) : list nat :=
  seq (st_next st) (List.length (sp_views d)).

Definition new_core (d : SerializedPaneview) (st : St) : Core :=
  engine_fromDescriptor (sp_size d) (combine (new_panels d st) (map spp_size (sp_views d))).

End Predicates.

(** ** Reasoning about computations *)

Section Reasoning.

Context {Core : Type} `{LayoutEngine Core}.

Local Abbreviation St := (@St Core).
Local Abbreviation M := (@M Core).
Local Abbreviation vertical := (@vertical Core).
Local Abbreviation keeps_vertical := (@keeps_vertical Core).

Lemma bind_ok {A B} (m : M A) (k : A -> M B) st st1 a :
  m st = (st1, Ok a) -> bind m k st = k a st1.
Proof. intros E. unfold bind. now rewrite E. Qed.

Lemma bind_throw {A B} (m : M A) (k : A -> M B) st st1 e :
  m st = (st1, Throw e) -> bind m k st = (st1, Throw e).
Proof. intros E. unfold bind. now rewrite E. Qed.

(** *** What a computation returns *)

Lemma returns_ret {A} (a : A) (P : A -> Prop) : P a -> returns (ret a : M A) P.
Proof. intros HP st st' a' E. unfold ret in E. now inversion E; subst. Qed.

Lemma returns_bind {A B} (m : M A) (k : A -> M B) (P : B -> Prop) :
  (forall a, returns (k a) P) -> returns (bind m k) P.
Proof.
  intros Hk st st' b E. unfold bind in E.
  destruct (m st) as [st1 [a|e]]; [ eapply Hk; exact E | discriminate ].
Qed.

(** *** Relations between the state before and after a computation *)

Section Steps.

Variable R : St -> St -> Prop.
Hypothesis R_refl : forall st, R st st.
Hypothesis R_trans : forall a b c, R a b -> R b c -> R a c.

Lemma steps_ret {A} (a : A) : steps R (ret a).
Proof. intros st. apply R_refl. Qed.

Lemma steps_lift {A} (r : res A) : steps R (lift r).
Proof. intros st. apply R_refl. Qed.

Lemma steps_gets {A} (f : St -> A) : steps R (gets f).
Proof. intros st. apply R_refl. Qed.

Lemma steps_bind {A B} (m : M A) (k : A -> M B) :
  steps R m -> (forall a, steps R (k a)) -> steps R (bind m k).
Proof.
  intros Hm Hk st. specialize (Hm st). unfold bind.
  destruct (m st) as [st1 [a|e]]; simpl in *; [ eapply R_trans; [exact Hm | apply Hk] | exact Hm ].
Qed.

Lemma steps_mapM {A B} (f : A -> M B) (l : list A) :
  (forall a, steps R (f a)) -> steps R (mapM f l).
Proof.
  intros Hf. induction l as [|x l IH]; simpl.
  - apply steps_ret.
  - apply steps_bind; [apply Hf | intros y].
    apply steps_bind; [exact IH | intros ys]. apply steps_ret.
Qed.

End Steps.

Lemma keeps_vertical_refl (st : St) : keeps_vertical st st.
Proof. unfold keeps_vertical. auto. Qed.

Lemma keeps_vertical_trans (a b c : St) :
  keeps_vertical a b -> keeps_vertical b c -> keeps_vertical a c.
Proof. unfold keeps_vertical. auto. Qed.

Lemma steps_vertical_of_orientation {A} (m : M A) :
  (forall st, pv_orientation (st_paneview (fst (m st))) = pv_orientation (st_paneview st)) ->
  steps keeps_vertical m.
Proof. intros E st Hv. unfold vertical in *. now rewrite E. Qed.

Ltac orientation_kept :=
  apply steps_vertical_of_orientation; intros st; reflexivity.

Lemma vert_emit e : steps keeps_vertical (emit e).
Proof. orientation_kept. Qed.

Lemma vert_write_panel u p : steps keeps_vertical (write_panel u p).
Proof. orientation_kept. Qed.

Lemma vert_set_core c : steps keeps_vertical (set_core c).
Proof. orientation_kept. Qed.

Lemma vert_setTimeout t : steps keeps_vertical (setTimeout t).
Proof. orientation_kept. Qed.

Lemma vert_new_PaneFramework i c hc h b o :
  steps keeps_vertical (new_PaneFramework i c hc h b o).
Proof. orientation_kept. Qed.

Lemma vert_set_paneview_vertical b c :
  steps keeps_vertical (set_paneview (Build_Paneview VERTICAL b c)).
Proof. intros st _. reflexivity. Qed.

Lemma vert_bind {A B} (m : M A) (k : A -> M B) :
  steps keeps_vertical m -> (forall a, steps keeps_vertical (k a)) ->
  steps keeps_vertical (bind m k).
Proof.
  intros Hm Hk. apply steps_bind; [ exact keeps_vertical_trans | exact Hm | exact Hk ].
Qed.

Create HintDb vert_db.
#[local] Hint Resolve keeps_vertical_refl keeps_vertical_trans : vert_db.
#[local] Hint Resolve vert_emit vert_write_panel vert_set_core vert_setTimeout
  vert_new_PaneFramework vert_set_paneview_vertical : vert_db.
#[local] Hint Extern 1 (steps keeps_vertical (ret _)) =>
  apply steps_ret; exact keeps_vertical_refl : vert_db.
#[local] Hint Extern 1 (steps keeps_vertical (lift _)) =>
  apply steps_lift; exact keeps_vertical_refl : vert_db.
#[local] Hint Extern 1 (steps keeps_vertical (gets _)) =>
  apply steps_gets; exact keeps_vertical_refl : vert_db.

(** Walks through a computation built with [bind], [let] and [match]. *)
Ltac vert_steps :=
  repeat (first
    [ solve [ eauto with vert_db ]
    | apply vert_bind; [ | intro ]
    | progress cbv zeta
    | match goal with
      | |- steps _ (match ?x with _ => _ end) => destruct x
      | |- steps _ (let '(_, _) := ?x in _) => destruct x
      end ]).

Lemma vert_paneview_ops :
  (forall u s i, steps keeps_vertical (paneview_addPane u s i)) /\
  (forall i, steps keeps_vertical (paneview_removePane i)) /\
  (forall f t, steps keeps_vertical (paneview_moveView f t)) /\
  (forall s o, steps keeps_vertical (paneview_layout s o)) /\
  steps keeps_vertical paneview_dispose.
Proof.
  repeat split; intros;
    unfold paneview_addPane, paneview_removePane, paneview_moveView,
      paneview_layout, core_now; vert_steps.
  unfold paneview_dispose. vert_steps. orientation_kept.
Qed.

Lemma vert_panel_ops :
  (forall u p, steps keeps_vertical (panel_init u p)) /\
  (forall u o, steps keeps_vertical (set_panel_orientation u o)) /\
  (forall u v, steps keeps_vertical (api_setExpanded u v)) /\
  (forall u, steps keeps_vertical (api_isExpanded u)) /\
  (forall i hc, steps keeps_vertical (make_header i hc)) /\
  (forall v, steps keeps_vertical (build_view v)) /\
  (forall q, steps keeps_vertical (run_queue q)).
Proof.
  destruct vert_paneview_ops as (Ha & Hr & Hm & Hl & Hd).
  repeat split; intros;
    unfold panel_init, set_panel_orientation, api_setExpanded, api_isExpanded,
      make_header, build_view, read_panel; vert_steps.
  induction q as [|[u p] q IH]; simpl; vert_steps.
Qed.

(** Every method of the component keeps the engine vertical. *)
Lemma exec_keeps_vertical (op : Op) (st : St) : vertical st -> vertical (exec op st).
Proof.
  destruct vert_paneview_ops as (Ha & Hr & Hm & Hl & Hd).
  destruct vert_panel_ops as (Hi & Ho & Hs & He & Hh & Hb & Hq).
  destruct op; simpl.
  - revert st. change (steps keeps_vertical (addPanel o)).
    unfold addPanel; vert_steps.
  - revert st. change (steps keeps_vertical (removePanel panel)).
    unfold removePanel, getPanels; vert_steps.
  - revert st. change (steps keeps_vertical (movePanel from to)).
    unfold movePanel; vert_steps.
  - revert st. change (steps keeps_vertical (layout w h)).
    unfold layout; vert_steps.
  - revert st. change (steps keeps_vertical resizeToFit).
    unfold resizeToFit, layout; vert_steps.
  - revert st. change (steps keeps_vertical (fromJSON d defer)).
    unfold fromJSON, layout; vert_steps.
    apply steps_mapM; [exact keeps_vertical_refl | exact keeps_vertical_trans | exact Hb].
  - intros Hv. unfold run_next_task. destruct (st_tasks st) as [|t ts]; [exact Hv|].
    apply Hq. exact Hv.
  - revert st. change (steps keeps_vertical (defaultHeader_click owner)).
    unfold defaultHeader_click, read_panel; vert_steps.
  - auto.
Qed.

Lemma reachable_vertical (st : St) : reachable st -> vertical st.
Proof.
  intros (parent & opts & ops & ->). unfold run_ops.
  assert (Hv : vertical (PaneviewComponent_new parent opts)) by reflexivity.
  revert Hv. generalize (PaneviewComponent_new parent opts) as s.
  induction ops as [|op ops IH]; intros s Hv; simpl; [exact Hv|].
  apply IH, exec_keeps_vertical, Hv.
Qed.

(** *** Building the panels of a document *)

Lemma createComponent_throw id kind cs fs e :
  createComponent id kind cs fs = Throw e -> e = ResolutionError kind.
Proof.
  unfold createComponent. destruct (_ || _); intros E; inversion E; reflexivity.
Qed.

Lemma make_header_ok id hc (st : St) :
  header_resolves (st_options st) id hc = true ->
  exists h, make_header id hc st = (st, Ok h).
Proof.
  unfold header_resolves, make_header, bind, gets, lift, ret.
  destruct hc as [hc|]; [| eauto].
  destruct (truthy_string (Some hc)); [| eauto].
  destruct (createComponent _ _ _ _); simpl; [eauto | discriminate].
Qed.

Lemma make_header_fail id hc (st : St) :
  header_resolves (st_options st) id hc = false ->
  exists k, make_header id hc st = (st, Throw (ResolutionError k)).
Proof.
  unfold header_resolves, make_header, bind, gets, lift, ret.
  destruct hc as [hc|]; [| discriminate].
  destruct (truthy_string (Some hc)); [| discriminate].
  destruct (createComponent _ _ _ _) eqn:E; simpl; [discriminate |].
  apply createComponent_throw in E. subst. eauto.
Qed.

Lemma build_view_ok v (st : St) :
  view_resolves (st_options st) v = true ->
  exists p ip,
    build_view v st =
      (with_heap (heap_update (st_next st) p (st_heap st)) (S (st_next st)) st,
       Ok ((st_next st, spp_size v), (st_next st, ip)))
    /\ pf_id p = sd_id (spp_data v).
Proof.
  unfold view_resolves. intros Hr. apply andb_true_iff in Hr as [Hb Hh].
  destruct (make_header_ok _ _ st Hh) as [h Eh].
  unfold build_view. cbv zeta.
  unfold bind at 1, gets. unfold bind at 1, lift.
  destruct (createComponent _ _ _ _) as [body|e]; [| discriminate].
  rewrite (bind_ok _ _ _ _ _ Eh).
  eexists; eexists; split; reflexivity.
Qed.

Lemma build_view_fail v (st : St) :
  view_resolves (st_options st) v = false ->
  exists k, build_view v st = (st, Throw (ResolutionError k)).
Proof.
  unfold view_resolves. intros Hr.
  unfold build_view. cbv zeta.
  unfold bind at 1, gets. unfold bind at 1, lift.
  destruct (createComponent _ _ _ _) as [body|e] eqn:Eb; simpl in Hr.
  - destruct (make_header_fail _ _ st Hr) as [k Eh].
    rewrite (bind_throw _ _ _ _ _ Eh). eauto.
  - apply createComponent_throw in Eb. subst. eauto.
Qed.

Lemma mapM_build_view_ok (vs : list SerializedPaneviewPanel) (st : St) :
  forallb (view_resolves (st_options st)) vs = true ->
  exists st' built,
    mapM build_view vs st = (st', Ok built)
    /\ st_trace st' = st_trace st
    /\ st_paneview st' = st_paneview st
    /\ st_tasks st' = st_tasks st
    /\ st_options st' = st_options st
    /\ map (fun x => fst (fst x)) built = seq (st_next st) (List.length vs)
    /\ map (fun x => snd (fst x)) built = map spp_size vs
    /\ map (fun x => fst (snd x)) built = seq (st_next st) (List.length vs)
    /\ map (fun u => pf_id (st_heap st' u)) (seq (st_next st) (List.length vs))
       = map (fun v => sd_id (spp_data v)) vs
    /\ (forall u, (u < st_next st)%nat -> st_heap st' u = st_heap st u).
Proof.
  revert st. induction vs as [|v vs IH]; intros st Hr.
  - exists st, []. repeat split; auto.
  - simpl in Hr. apply andb_true_iff in Hr as [Hv Hvs].
    destruct (build_view_ok v st Hv) as (p & ip & Eb & Hid).
    set (st1 := with_heap (heap_update (st_next st) p (st_heap st)) (S (st_next st)) st) in *.
    destruct (IH st1 Hvs) as (st' & built & Em & Htr & Hpv & Hts & Hop & H1 & H2 & H3 & H4 & H5).
    exists st', (((st_next st, spp_size v), (st_next st, ip)) :: built).
    simpl mapM. rewrite (bind_ok _ _ _ _ _ Eb). rewrite (bind_ok _ _ _ _ _ Em).
    repeat split; try assumption; simpl.
    + rewrite H1. reflexivity.
    + rewrite H2. reflexivity.
    + rewrite H3. reflexivity.
    + f_equal; [| exact H4].
      rewrite H5 by (simpl; lia). simpl. unfold heap_update. rewrite Nat.eqb_refl.
      exact Hid.
    + intros u Hu. rewrite H5 by (simpl; lia). simpl. unfold heap_update.
      destruct (Nat.eqb_spec u (st_next st)); [lia | reflexivity].
Qed.

Lemma mapM_build_view_fail (vs : list SerializedPaneviewPanel) (st : St) :
  forallb (view_resolves (st_options st)) vs = false ->
  exists st' k,
    mapM build_view vs st = (st', Throw (ResolutionError k))
    /\ st_trace st' = st_trace st
    /\ st_paneview st' = st_paneview st
    /\ st_tasks st' = st_tasks st.
Proof.
  revert st. induction vs as [|v vs IH]; intros st Hr; [discriminate |].
  simpl in Hr. simpl mapM.
  destruct (view_resolves (st_options st) v) eqn:Hv.
  - destruct (build_view_ok v st Hv) as (p & ip & Eb & _).
    rewrite (bind_ok _ _ _ _ _ Eb).
    destruct (IH (with_heap (heap_update (st_next st) p (st_heap st)) (S (st_next st)) st) Hr)
      as (st' & k & Em & Htr & Hpv & Hts).
    exists st', k. cbv beta. rewrite (bind_throw _ _ _ _ _ Em). repeat split; assumption.
  - destruct (build_view_fail v st Hv) as [k Eb].
    exists st, k. rewrite (bind_throw _ _ _ _ _ Eb). repeat split.
Qed.

Lemma run_queue_trace (q : list (nat * InitParams)) (s : St) :
  exists s', run_queue q s = (s', Ok tt)
    /\ st_trace s' = st_trace s ++ map (fun x => EvInit (fst x)) q.
Proof.
  revert s. induction q as [|[u p] q IH]; intros s.
  - exists s. split; [reflexivity | now rewrite app_nil_r].
  - simpl run_queue.
    assert (Ei : panel_init u p s = (fst (panel_init u p s), Ok tt)) by reflexivity.
    rewrite (bind_ok _ _ _ _ _ Ei).
    destruct (IH (fst (panel_init u p s))) as (s' & Eq & Htr).
    exists s'. split; [exact Eq |]. rewrite Htr. simpl.
    rewrite <- app_assoc. reflexivity.
Qed.

End Reasoning.

(** ** The claims *)

Section Claims.

Context {Core : Type} `{LayoutEngine Core}.

Local Abbreviation St := (@St Core).

(** [this.paneview.layout(size, orthogonalSize)] records the call and hands
    the pair to the engine. *)
Lemma paneview_layout_effect (s o : Z) (st : St) :
  paneview_layout s o st =
    (with_paneview
       (Build_Paneview (pv_orientation (st_paneview st)) (pv_disposed (st_paneview st))
          (engine_layout s o (pv_core (st_paneview st))))
       (with_trace (st_trace st ++ [EvLayout s o]) st), Ok tt).
Proof. reflexivity. Qed.

(** C6: [layout(width, height)] forwards [(width, height)] to the Layout
    Engine when its orientation is horizontal and [(height, width)] when it
    is vertical; in every state the component can reach, the engine is
    vertical, so [layout(width, height)] forwards [(height, width)]. *)
Theorem layout_axis_mapping (st : St) (w h : Z) :
  layout w h st =
    paneview_layout
      (match pv_orientation (st_paneview st) with HORIZONTAL => w | VERTICAL => h end)
      (match pv_orientation (st_paneview st) with HORIZONTAL => h | VERTICAL => w end) st
  /\ (reachable st -> layout w h st = paneview_layout h w st).
Proof.
  assert (E : layout w h st =
    paneview_layout
      (match pv_orientation (st_paneview st) with HORIZONTAL => w | VERTICAL => h end)
      (match pv_orientation (st_paneview st) with HORIZONTAL => h | VERTICAL => w end) st).
  { unfold layout, bind, gets. destruct (pv_orientation (st_paneview st)); reflexivity. }
  split; [exact E |].
  intros Hr. rewrite E. now rewrite (reachable_vertical st Hr).
Qed.

(** C7: when the root element has no parent, [resizeToFit] returns at once:
    no bounding box is read, [layout] is not called and the state (engine,
    panels, trace) is the state it started from. *)
Theorem resizeToFit_detached_noop (st : St) :
  st_parentRect st = None -> resizeToFit st = (st, Ok tt).
Proof. intros E. unfold resizeToFit, bind, gets. rewrite E. reflexivity. Qed.

(** C10: the disposable returned by [addPanel] does nothing: its [dispose]
    leaves every state as it is. *)
Theorem addPanel_dispose_noop (o : AddPaneviewComponentOptions) (st st' : St)
  (d : IDisposable) :
  addPanel o st = (st', Ok d) -> forall s, dispose d s = s.
Proof.
  revert st st' d.
  change (returns (addPanel o) (fun d => forall s, dispose d s = s)).
  unfold addPanel.
  repeat (first [ apply returns_bind; intro | progress cbv zeta ]).
  apply returns_ret. reflexivity.
Qed.

(** The panels a document builds, handed to the new engine with their sizes. *)
Lemma map_fst_combine (l : list ((nat * Z) * (nat * InitParams))) :
  map fst l = combine (map (fun x => fst (fst x)) l) (map (fun x => snd (fst x)) l).
Proof. induction l as [|[[u z] t] l IH]; simpl; [reflexivity | now rewrite IH]. Qed.

(** C4: [fromJSON(data, true)] on a document whose components all resolve
    returns normally having run no [init] (its only effects are disposing
    the old engine and one [layout] call) and queues one [setTimeout] task;
    the task holds one [init] per view, for fresh, pairwise distinct panels,
    in the order of [data.views] (the i-th one is the panel built from the
    i-th view and handed to the new engine at position i); when the host
    runs that task, exactly these [init] calls happen, in that order. *)
Theorem fromJSON_deferred_init_order (d : SerializedPaneview) (st : St) :
  forallb (view_resolves (st_options st)) (sp_views d) = true ->
  snd (fromJSON d (Some true) st) = Ok tt
  /\ (exists a b, st_trace (fst (fromJSON d (Some true) st))
                  = st_trace st ++ [EvDisposeEngine; EvLayout a b])
  /\ exists task,
       st_tasks (fst (fromJSON d (Some true) st)) = st_tasks st ++ [task]
       /\ NoDup (map fst task)
       /\ map (fun x => pf_id (st_heap (fst (fromJSON d (Some true) st)) (fst x))) task
          = map (fun v => sd_id (spp_data v)) (sp_views d)
       /\ (exists a b, pv_core (st_paneview (fst (fromJSON d (Some true) st)))
             = engine_layout a b (engine_fromDescriptor (sp_size d)
                 (combine (map fst task) (map spp_size (sp_views d)))))
       /\ forall (s : St) rest, st_tasks s = task :: rest ->
            st_trace (run_next_task s) = st_trace s ++ map (fun x => EvInit (fst x)) task.
Proof.
  intros Hr.
  set (st0 := fst (paneview_dispose st)).
  assert (E0 : paneview_dispose st = (st0, Ok tt)) by reflexivity.
  destruct (mapM_build_view_ok (sp_views d) st0 Hr)
    as (st1 & built & Em & Htr & Hpv & Hts & Hop & H1 & H2 & H3 & H4 & H5).
  assert (Ef : fromJSON d (Some true) st =
    bind (set_paneview (Build_Paneview VERTICAL false
                          (engine_fromDescriptor (sp_size d) (map fst built))))
      (fun _ => w <- gets width ;; h <- gets height ;; layout w h ;;
                setTimeout (map snd built)) st1).
  { unfold fromJSON. rewrite (bind_ok _ _ _ _ _ E0). cbv beta.
    rewrite (bind_ok _ _ _ _ _ Em). reflexivity. }
  rewrite Ef. clear Ef. simpl.
  assert (Htr0 : st_trace st1 = st_trace st ++ [EvDisposeEngine]) by (rewrite Htr; reflexivity).
  assert (Hts0 : st_tasks st1 = st_tasks st) by (rewrite Hts; reflexivity).
  split; [reflexivity |].
  split.
  { do 2 eexists. rewrite Htr0, <- app_assoc. reflexivity. }
  exists (map snd built). split; [now rewrite Hts0 |].
  split; [rewrite map_map, H3; apply seq_NoDup |].
  split.
  { rewrite map_map. rewrite <- H4, <- H3, map_map. reflexivity. }
  split.
  { do 2 eexists. f_equal. f_equal. rewrite map_fst_combine, H1, H2, map_map, H3.
    reflexivity. }
  intros s rest Hs. unfold run_next_task. rewrite Hs.
  destruct (run_queue_trace (map snd built) (with_tasks rest s)) as (s' & Eq & Htr').
  rewrite Eq. simpl. rewrite Htr', map_map. reflexivity.
Qed.

(** C2 (as the code does it): [fromJSON] disposes the current Layout Engine
    before it builds any panel of the new generation. When the Component
    Factory fails on some view, the [ResolutionError] propagates and the
    component is left holding its old engine, now disposed, with the same
    panels: no new engine is installed, no [init] runs, nothing is queued. *)
Theorem fromJSON_disposes_before_building (d : SerializedPaneview)
  (defer : option bool) (st : St) :
  forallb (view_resolves (st_options st)) (sp_views d) = false ->
  exists k st',
    fromJSON d defer st = (st', Throw (ResolutionError k))
    /\ st_paneview st' = Build_Paneview (pv_orientation (st_paneview st)) true
                                        (pv_core (st_paneview st))
    /\ st_trace st' = st_trace st ++ [EvDisposeEngine]
    /\ st_tasks st' = st_tasks st.
Proof.
  intros Hr.
  set (st0 := fst (paneview_dispose st)).
  assert (E0 : paneview_dispose st = (st0, Ok tt)) by reflexivity.
  destruct (mapM_build_view_fail (sp_views d) st0 Hr) as (st1 & k & Em & Htr & Hpv & Hts).
  exists k, st1. unfold fromJSON. rewrite (bind_ok _ _ _ _ _ E0). cbv beta.
  rewrite (bind_throw _ _ _ _ _ Em). split; [reflexivity |].
  rewrite Htr, Hpv, Hts. repeat split.
Qed.

(** C5: when the Component Factory resolves the descriptor's components,
    [addPanel] hands the new panel to [Paneview.addPane] with the explicit
    size when [descriptor.size] is a number and [Sizing.Distribute]
    otherwise, and with [descriptor.index] when it is a number and no index
    (append) otherwise; this is the first thing it does to the engine, and
    the panel is the fresh one it has just built. *)
Theorem addPanel_sizing_and_index (o : AddPaneviewComponentOptions) (st : St) :
  options_resolve (st_options st) o = true ->
  exists rest,
    st_trace (fst (addPanel o st)) =
      st_trace st ++
        EvAddPane (st_next st)
          (match ao_size o with Some s => SizeNumber s | None => Distribute end)
          (match ao_index o with Some i => Some i | None => None end) :: rest.
Proof.
  intros Hr. unfold options_resolve in Hr. apply andb_true_iff in Hr as [Hb Hh].
  destruct (make_header_ok _ _ st Hh) as [h Eh].
  unfold addPanel. unfold bind at 1, gets. unfold bind at 1, lift.
  destruct (createComponent _ _ _ _) as [body|e]; [| discriminate].
  rewrite (bind_ok _ _ _ _ _ Eh). cbv beta zeta.
  unfold paneview_addPane, panel_init, set_panel_orientation, emit, core_now,
    set_core, read_panel, write_panel, gets, lift, ret, bind.
  cbn -[addPane].
  match goal with |- context [addPane ?a ?b ?c ?d] => destruct (addPane a b c d) as [c'|e] end;
    cbn.
  - eexists. rewrite <- app_assoc. reflexivity.
  - exists []. reflexivity.
Qed.

Lemma mapi_from_length {A B} (f : nat -> A -> B) k l :
  List.length (mapi_from f k l) = List.length l.
Proof. revert k; induction l; intros k; simpl; [reflexivity | now rewrite IHl]. Qed.

Lemma nth_error_mapi_from {A B} (f : nat -> A -> B) k l i :
  nth_error (mapi_from f k l) i = option_map (f (k + i)%nat) (nth_error l i).
Proof.
  revert k i; induction l as [|x l IH]; intros k [|i]; simpl; try reflexivity.
  - now rewrite Nat.add_0_r.
  - rewrite IH. now rewrite Nat.add_succ_r.
Qed.

(** C8: [toJSON] emits one view per pane of the engine, in the engine's
    order; the view at index i belongs to the i-th pane, its size is the
    engine's [getViewSize(i)] (the panel object holds no size), and the
    document's size is the engine's [size]. *)
Theorem toJSON_views_per_index (st : St) :
  List.length (sp_views (toJSON st)) = List.length (getPanes (pv_core (st_paneview st)))
  /\ sp_size (toJSON st) = engine_size (pv_core (st_paneview st))
  /\ forall i u, nth_error (getPanes (pv_core (st_paneview st))) i = Some u ->
       nth_error (sp_views (toJSON st)) i =
         Some {| spp_size := getViewSize (pv_core (st_paneview st)) (Z.of_nat i);
                 spp_data := panel_toJSON (st_heap st u);
                 spp_minimumSize := pf_minimumBodySize (st_heap st u);
                 spp_maximumSize := pf_maximumBodySize (st_heap st u);
                 spp_expanded := Some (pf_expanded (st_heap st u)) |}.
Proof.
  split; [apply mapi_from_length |]. split; [reflexivity |].
  intros i u Hi. unfold toJSON. simpl. rewrite nth_error_mapi_from, Hi. reflexivity.
Qed.

(** C9: in any state, a click on a [DefaultHeader] whose [apiRef.api] is
    still null (before [init]) changes nothing and reads nothing; [init]
    binds the header to its panel's api; and in any state where the header
    is bound to the api of a panel [a] (as after [init]) and has not been
    disposed, a click reads [a]'s current expansion flag and writes back its
    negation, recording one read and one write and changing nothing else. *)
Theorem defaultHeader_click_before_after (st : St) (owner : nat) :
  (forall t, pf_header (st_heap st owner) = DefaultHeader None t ->
     defaultHeader_click owner st = (st, Ok tt))
  /\ (forall p t, pf_header (st_heap st owner) = DefaultHeader None t ->
        pf_header (st_heap (fst (panel_init owner p st)) owner)
        = DefaultHeader (Some owner) (ip_title p))
  /\ (forall a t, pf_header (st_heap st owner) = DefaultHeader (Some a) t ->
        pf_disposed (st_heap st owner) = false ->
        snd (defaultHeader_click owner st) = Ok tt
        /\ pf_expanded (st_heap (fst (defaultHeader_click owner st)) a)
           = negb (pf_expanded (st_heap st a))
        /\ (forall v, v <> a -> st_heap (fst (defaultHeader_click owner st)) v = st_heap st v)
        /\ st_trace (fst (defaultHeader_click owner st))
           = st_trace st ++ [EvReadExpanded a; EvSetExpanded a (negb (pf_expanded (st_heap st a)))]
        /\ st_paneview (fst (defaultHeader_click owner st)) = st_paneview st
        /\ st_next (fst (defaultHeader_click owner st)) = st_next st).
Proof.
  split; [| split].
  - intros t Hh. unfold defaultHeader_click, bind, read_panel, gets. rewrite Hh.
    destruct (pf_disposed (st_heap st owner)); reflexivity.
  - intros p t Hh. cbn. unfold heap_update. rewrite Nat.eqb_refl. cbn. rewrite Hh. reflexivity.
  - intros a t Hh Hd.
    unfold defaultHeader_click, api_isExpanded, api_setExpanded, emit, read_panel,
      write_panel, gets, ret, bind.
    cbn. rewrite Hd, Hh. cbn. unfold heap_update. rewrite Nat.eqb_refl. cbn.
    split; [reflexivity |]. split; [reflexivity |]. split.
    + intros v Hv. apply Nat.eqb_neq in Hv. rewrite Hv. reflexivity.
    + split; [rewrite <- app_assoc; reflexivity |]. split; reflexivity.
Qed.

(** What [removePanel] does with a panel the engine does not hold: it
    passes [-1] (the result of [findIndex]) to [Paneview.removePane]. *)
Lemma findIndex_from_absent u l i : ~ In u l -> findIndex_from u l i = -1.
Proof.
  revert i. induction l as [|x l IH]; intros i Hn; simpl; [reflexivity |].
  destruct (Nat.eqb_spec x u) as [-> | Hx]; [exfalso; apply Hn; now left |].
  apply IH. intros Hin. apply Hn. now right.
Qed.

Lemma removePanel_absent (u : nat) (st : St) :
  ~ In u (getPanes (pv_core (st_paneview st))) ->
  removePanel u st = paneview_removePane (-1) st.
Proof.
  intros Hn. unfold removePanel, getPanels, bind, gets. cbv beta zeta.
  unfold findIndex. rewrite findIndex_from_absent by exact Hn. reflexivity.
Qed.

End Claims.

(** *** Witnesses *)

Lemma two_panels_reachable : reachable two_panels.
Proof.
  exists (Some (300, 600)), text_options,
    [OpLayout 300 600; OpAddPanel (add_options "p1" "One");
     OpAddPanel (add_options "p2" "Two")].
  reflexivity.
Qed.

Lemma layout_axis_mapping_witness :
  reachable two_panels /\ layout 1 2 two_panels = paneview_layout 2 1 two_panels.
Proof.
  split; [exact two_panels_reachable |].
  exact (proj2 (layout_axis_mapping two_panels 1 2) two_panels_reachable).
Defined.

Lemma resizeToFit_detached_noop_witness :
  st_parentRect detached = None /\ resizeToFit detached = (detached, Ok tt).
Proof.
  split; [reflexivity |]. apply resizeToFit_detached_noop. reflexivity.
Defined.

Lemma addPanel_dispose_noop_witness :
  addPanel (add_options "p3" "Three") two_panels =
    (fst (addPanel (add_options "p3" "Three") two_panels), Ok noop_disposable)
  /\ dispose noop_disposable start = start.
Proof.
  assert (E : addPanel (add_options "p3" "Three") two_panels =
    (fst (addPanel (add_options "p3" "Three") two_panels), Ok noop_disposable))
    by (vm_compute; reflexivity).
  split; [exact E |]. exact (addPanel_dispose_noop _ _ _ _ E start).
Defined.

Lemma fromJSON_deferred_init_order_witness :
  forallb (view_resolves (st_options two_panels)) (sp_views (toJSON two_panels)) = true
  /\ snd (fromJSON (toJSON two_panels) (Some true) two_panels) = Ok tt.
Proof.
  assert (Hr : forallb (view_resolves (st_options two_panels)) (sp_views (toJSON two_panels)) = true)
    by (vm_compute; reflexivity).
  split; [exact Hr |]. exact (proj1 (fromJSON_deferred_init_order _ _ Hr)).
Defined.

Lemma fromJSON_disposes_before_building_witness :
  forallb (view_resolves (st_options two_panels)) (sp_views bad_document) = false
  /\ exists k st', fromJSON bad_document None two_panels = (st', Throw (ResolutionError k)).
Proof.
  assert (Hr : forallb (view_resolves (st_options two_panels)) (sp_views bad_document) = false)
    by (vm_compute; reflexivity).
  split; [exact Hr |].
  destruct (fromJSON_disposes_before_building bad_document None two_panels Hr)
    as (k & st' & E & _).
  exists k, st'. exact E.
Defined.

(** C2 fails as stated: the factory throws on [bad_document], and the
    component, which held a live engine, is left with that engine disposed. *)
Lemma fromJSON_failure_leaves_disposed_engine :
  snd (fromJSON bad_document None two_panels) = Throw (ResolutionError "missing")
  /\ pv_disposed (st_paneview two_panels) = false
  /\ pv_disposed (st_paneview (fst (fromJSON bad_document None two_panels))) = true.
Proof. vm_compute. repeat split. Qed.

Lemma addPanel_sizing_and_index_witness :
  options_resolve (st_options two_panels) sized_at_front = true
  /\ exists rest,
       st_trace (fst (addPanel sized_at_front two_panels)) =
         st_trace two_panels ++ EvAddPane 2 (SizeNumber 120) (Some 0) :: rest.
Proof.
  assert (Hr : options_resolve (st_options two_panels) sized_at_front = true)
    by (vm_compute; reflexivity).
  split; [exact Hr |]. exact (addPanel_sizing_and_index sized_at_front two_panels Hr).
Defined.

Lemma toJSON_views_per_index_witness :
  nth_error (getPanes (pv_core (st_paneview two_panels))) 1 = Some 1%nat
  /\ nth_error (sp_views (toJSON two_panels)) 1 =
       Some {| spp_size := getViewSize (pv_core (st_paneview two_panels)) 1;
               spp_data := panel_toJSON (st_heap two_panels 1);
               spp_minimumSize := pf_minimumBodySize (st_heap two_panels 1);
               spp_maximumSize := pf_maximumBodySize (st_heap two_panels 1);
               spp_expanded := Some (pf_expanded (st_heap two_panels 1)) |}.
Proof.
  assert (Hi : nth_error (getPanes (pv_core (st_paneview two_panels))) 1 = Some 1%nat)
    by (vm_compute; reflexivity).
  split; [exact Hi |]. exact (proj2 (proj2 (toJSON_views_per_index two_panels)) 1%nat 1%nat Hi).
Defined.

Lemma defaultHeader_click_before_after_witness :
  pf_header (st_heap uninitialised 2) = DefaultHeader None ""
  /\ defaultHeader_click 2 uninitialised = (uninitialised, Ok tt)
  /\ pf_header (st_heap two_panels 1) = DefaultHeader (Some 1%nat) "Two"
  /\ pf_disposed (st_heap two_panels 1) = false
  /\ pf_expanded (st_heap (fst (defaultHeader_click 1 two_panels)) 1)
     = negb (pf_expanded (st_heap two_panels 1)).
Proof.
  assert (Hh : pf_header (st_heap uninitialised 2) = DefaultHeader None "")
    by (vm_compute; reflexivity).
  assert (Hb : pf_header (st_heap two_panels 1) = DefaultHeader (Some 1%nat) "Two")
    by (vm_compute; reflexivity).
  assert (Hd : pf_disposed (st_heap two_panels 1) = false) by (vm_compute; reflexivity).
  split; [exact Hh |].
  split; [exact (proj1 (defaultHeader_click_before_after uninitialised 2) "" Hh) |].
  split; [exact Hb |]. split; [exact Hd |].
  exact (proj1 (proj2 (proj2 (proj2 (defaultHeader_click_before_after two_panels 1)) 1%nat "Two" Hb Hd))).
Defined.

(** ** Further properties of the component *)

Section Properties.

Context {Core : Type} `{LayoutEngine Core}.

Local Abbreviation St := (@St Core).
Local Abbreviation M := (@M Core).
Local Abbreviation vertical := (@vertical Core).
Local Abbreviation all_vertical := (@all_vertical Core).
Local Abbreviation keeps_all_vertical := (@keeps_all_vertical Core).
Local Abbreviation heap_grows := (@heap_grows Core).

(** *** Looking panels up *)

Lemma find_none_iff {A} (f : A -> bool) (l : list A) :
  find f l = None <-> Forall (fun x => f x = false) l.
Proof.
  induction l as [|x l IH]; simpl.
  - split; auto.
  - destruct (f x) eqn:E; split; intros Hf.
    + discriminate.
    + inversion Hf; congruence.
    + constructor; [exact E | apply IH, Hf].
    + apply IH. inversion Hf; assumption.
Qed.

Lemma find_some_iff {A} (f : A -> bool) (l : list A) (x : A) :
  find f l = Some x <->
  exists pre post, l = pre ++ x :: post /\ f x = true /\ Forall (fun y => f y = false) pre.
Proof.
  induction l as [|a l IH]; simpl.
  - split; [discriminate | intros (pre & post & E & _); destruct pre; discriminate].
  - destruct (f a) eqn:E; split.
    + intros Ex. injection Ex as <-. exists [], l. auto.
    + intros (pre & post & El & Hx & Hpre). destruct pre as [|b pre]; simpl in El.
      * injection El as <- _. reflexivity.
      * injection El as <- _. inversion Hpre; congruence.
    + intros Ef. apply IH in Ef as (pre & post & El & Hx & Hpre).
      exists (a :: pre), post. rewrite El. split; [reflexivity | split; [exact Hx |]].
      constructor; assumption.
    + intros (pre & post & El & Hx & Hpre). destruct pre as [|b pre]; simpl in El.
      * injection El as <- _. congruence.
      * injection El as <- El. apply IH. exists pre, post. inversion Hpre; auto.
Qed.

Lemma Forall_eqb_false (st : St) (id : string) (l : list nat) :
  Forall (fun u => String.eqb (pf_id (st_heap st u)) id = false) l <->
  Forall (fun u => pf_id (st_heap st u) <> id) l.
Proof.
  split; intros Hf; eapply Forall_impl; try exact Hf; intros u Hu; apply String.eqb_neq, Hu.
Qed.

(** [getPanel(id)] changes nothing; it returns [undefined] exactly when no
    pane of the engine has that id, and otherwise the first pane, in the
    engine's order, whose id it is. *)
Theorem getPanel_first_match (id : string) (st : St) :
  fst (getPanel id st) = st
  /\ (snd (getPanel id st) = Ok None <->
      Forall (fun u => pf_id (st_heap st u) <> id) (getPanes (pv_core (st_paneview st))))
  /\ forall u, snd (getPanel id st) = Ok (Some u) <->
      exists pre post, getPanes (pv_core (st_paneview st)) = pre ++ u :: post
        /\ pf_id (st_heap st u) = id
        /\ Forall (fun v => pf_id (st_heap st v) <> id) pre.
Proof.
  assert (E : getPanel id st =
    (st, Ok (find (fun u => String.eqb (pf_id (st_heap st u)) id)
                  (getPanes (pv_core (st_paneview st)))))) by reflexivity.
  rewrite E. simpl. split; [reflexivity |]. split.
  - rewrite <- Forall_eqb_false, <- find_none_iff.
    split; [intros Hn; injection Hn as Hn; exact Hn | intros ->; reflexivity].
  - intros u. split.
    + intros Hs. injection Hs as Hs. apply find_some_iff in Hs as (pre & post & El & Hu & Hpre).
      exists pre, post. split; [exact El |]. split; [apply String.eqb_eq, Hu |].
      apply Forall_eqb_false, Hpre.
    + intros (pre & post & El & Hu & Hpre). f_equal. apply find_some_iff.
      exists pre, post. split; [exact El |]. split; [apply String.eqb_eq, Hu |].
      apply Forall_eqb_false, Hpre.
Qed.

(** *** Removing a panel *)

Lemma first_occurrence (u : nat) (l : list nat) :
  In u l -> exists pre post, l = pre ++ u :: post /\ ~ In u pre.
Proof.
  induction l as [|x l IH]; simpl; [contradiction |]. intros Hin.
  destruct (Nat.eq_dec x u) as [-> | Hx].
  - exists [], l. split; [reflexivity | intros []].
  - destruct Hin as [-> | Hin]; [contradiction |].
    destruct (IH Hin) as (pre & post & El & Hn).
    exists (x :: pre), post. split; [now rewrite El |].
    intros [-> | Hp]; [contradiction | exact (Hn Hp)].
Qed.

Lemma findIndex_from_app (u : nat) (pre post : list nat) (k : Z) :
  ~ In u pre -> findIndex_from u (pre ++ u :: post) k = k + Z.of_nat (List.length pre).
Proof.
  revert k. induction pre as [|x pre IH]; intros k Hn; simpl.
  - rewrite Nat.eqb_refl. lia.
  - destruct (Nat.eqb_spec x u) as [-> | Hx]; [exfalso; apply Hn; now left |].
    rewrite IH by (intros Hp; apply Hn; now right). lia.
Qed.

(** For a panel the engine holds, [removePanel] asks the engine to remove
    the position of its first occurrence in [getPanels()]. *)
Theorem removePanel_first_index (u : nat) (st : St) :
  In u (getPanes (pv_core (st_paneview st))) ->
  exists pre post,
    getPanes (pv_core (st_paneview st)) = pre ++ u :: post /\ ~ In u pre
    /\ removePanel u st = paneview_removePane (Z.of_nat (List.length pre)) st.
Proof.
  intros Hin. destruct (first_occurrence u _ Hin) as (pre & post & El & Hn).
  exists pre, post. split; [exact El |]. split; [exact Hn |].
  unfold removePanel, getPanels, bind, gets. cbv beta zeta.
  unfold findIndex. rewrite El, findIndex_from_app by exact Hn. reflexivity.
Qed.

(** *** Adding a panel *)

(** When the Component Factory resolves neither the body nor (if one is
    named) the header component, [addPanel] throws the [ResolutionError]
    and the state is untouched: no panel object is allocated, the engine is
    not called, nothing is recorded. *)
Theorem addPanel_unresolved_noop (o : AddPaneviewComponentOptions) (st : St) :
  options_resolve (st_options st) o = false ->
  exists k, addPanel o st = (st, Throw (ResolutionError k)).
Proof.
  unfold options_resolve. intros Hr.
  unfold addPanel. unfold bind at 1, gets. unfold bind at 1, lift.
  destruct (createComponent _ _ _ _) as [body|e] eqn:Eb; simpl in Hr.
  - destruct (make_header_fail _ _ st Hr) as [k Eh].
    rewrite (bind_throw _ _ _ _ _ Eh). eauto.
  - apply createComponent_throw in Eb. subst. eauto.
Qed.

Ltac addPanel_run :=
  unfold addPanel, make_header, paneview_addPane, panel_init, set_panel_orientation,
    emit, core_now, set_core, read_panel, write_panel, new_PaneFramework,
    gets, lift, ret, bind;
  cbn -[addPane createComponent truthy_string].

(** When the components resolve and [Paneview.addPane] accepts the panel,
    [addPanel] allocates one fresh panel object, hands it to the engine and
    then calls its [init], in that order and nothing else; the engine is the
    one [addPane] returned, no other panel object changes, and the new panel
    carries the descriptor's id, component and header component, the
    engine's orientation and the [init] parameters ([params || {}], the
    bounds, the title). When [headerComponent] is absent or the empty
    string, its header is a [DefaultHeader] bound to the panel and showing
    the title. *)
Theorem addPanel_success (o : AddPaneviewComponentOptions) (st : St) (c' : Core) :
  options_resolve (st_options st) o = true ->
  addPane (st_next st) (match ao_size o with Some s => SizeNumber s | None => Distribute end)
    (match ao_index o with Some i => Some i | None => None end)
    (pv_core (st_paneview st)) = Ok c' ->
  is_ok (snd (addPanel o st)) = true
  /\ st_trace (fst (addPanel o st)) = st_trace st ++
       [EvAddPane (st_next st) (match ao_size o with Some s => SizeNumber s | None => Distribute end)
          (match ao_index o with Some i => Some i | None => None end); EvInit (st_next st)]
  /\ st_paneview (fst (addPanel o st)) =
       Build_Paneview (pv_orientation (st_paneview st)) (pv_disposed (st_paneview st)) c'
  /\ st_next (fst (addPanel o st)) = S (st_next st)
  /\ st_tasks (fst (addPanel o st)) = st_tasks st
  /\ (forall v, v <> st_next st -> st_heap (fst (addPanel o st)) v = st_heap st v)
  /\ pf_id (st_heap (fst (addPanel o st)) (st_next st)) = ao_id o
  /\ pf_component (st_heap (fst (addPanel o st)) (st_next st)) = ao_component o
  /\ pf_headerComponent (st_heap (fst (addPanel o st)) (st_next st)) = ao_headerComponent o
  /\ pf_orientation (st_heap (fst (addPanel o st)) (st_next st)) = pv_orientation (st_paneview st)
  /\ pf_initialized (st_heap (fst (addPanel o st)) (st_next st)) = true
  /\ pf_title (st_heap (fst (addPanel o st)) (st_next st)) = ao_title o
  /\ pf_params (st_heap (fst (addPanel o st)) (st_next st))
     = match ao_params o with Some q => q | None => [] end
  /\ pf_minimumBodySize (st_heap (fst (addPanel o st)) (st_next st)) = ao_minimumBodySize o
  /\ pf_maximumBodySize (st_heap (fst (addPanel o st)) (st_next st)) = ao_maximumBodySize o
  /\ (truthy_string (ao_headerComponent o) = false ->
      pf_header (st_heap (fst (addPanel o st)) (st_next st))
      = DefaultHeader (Some (st_next st)) (ao_title o)).
Proof.
  intros Hr Ha. unfold options_resolve, header_resolves in Hr.
  apply andb_true_iff in Hr as [Hb Hh].
  addPanel_run.
  destruct (createComponent (ao_id o) (ao_component o) _ _) as [body|e]; [| discriminate].
  cbn -[addPane createComponent truthy_string].
  destruct (ao_headerComponent o) as [hc|] eqn:Ehc.
  - destruct (truthy_string (Some hc)) eqn:Et.
    + destruct (createComponent (ao_id o) hc _ _) as [r|e]; [| discriminate].
      cbn -[addPane]. rewrite Ha. cbn. unfold heap_update. rewrite !Nat.eqb_refl. cbn.
      repeat split; try reflexivity.
      * rewrite <- app_assoc. reflexivity.
      * intros v Hv. apply Nat.eqb_neq in Hv. rewrite !Hv. reflexivity.
      * discriminate.
    + cbn -[addPane]. rewrite Ha. cbn. unfold heap_update. rewrite !Nat.eqb_refl. cbn.
      repeat split; try reflexivity.
      * rewrite <- app_assoc. reflexivity.
      * intros v Hv. apply Nat.eqb_neq in Hv. rewrite !Hv. reflexivity.
  - cbn -[addPane]. rewrite Ha. cbn. unfold heap_update. rewrite !Nat.eqb_refl. cbn.
    repeat split; try reflexivity.
    + rewrite <- app_assoc. reflexivity.
    + intros v Hv. apply Nat.eqb_neq in Hv. rewrite !Hv. reflexivity.
Qed.

(** When the components resolve but [Paneview.addPane] throws, [addPanel]
    throws the same error after having allocated the panel object: the
    engine is unchanged, the only recorded effect is the [addPane] call, and
    the new panel is never initialised; no other panel object changes. *)
Theorem addPanel_engine_error (o : AddPaneviewComponentOptions) (st : St) (e : Err) :
  options_resolve (st_options st) o = true ->
  addPane (st_next st) (match ao_size o with Some s => SizeNumber s | None => Distribute end)
    (match ao_index o with Some i => Some i | None => None end)
    (pv_core (st_paneview st)) = Throw e ->
  exists st',
    addPanel o st = (st', Throw e)
    /\ st_trace st' = st_trace st ++
         [EvAddPane (st_next st) (match ao_size o with Some s => SizeNumber s | None => Distribute end)
            (match ao_index o with Some i => Some i | None => None end)]
    /\ st_paneview st' = st_paneview st
    /\ st_next st' = S (st_next st)
    /\ pf_initialized (st_heap st' (st_next st)) = false
    /\ (forall v, v <> st_next st -> st_heap st' v = st_heap st v).
Proof.
  intros Hr Ha. unfold options_resolve, header_resolves in Hr.
  apply andb_true_iff in Hr as [Hb Hh].
  addPanel_run.
  destruct (createComponent (ao_id o) (ao_component o) _ _) as [body|e']; [| discriminate].
  cbn -[addPane createComponent truthy_string].
  destruct (ao_headerComponent o) as [hc|] eqn:Ehc;
    [destruct (truthy_string (Some hc)) eqn:Et;
     [destruct (createComponent (ao_id o) hc _ _) as [r|e']; [| discriminate] |] |];
    cbn -[addPane]; rewrite Ha; cbn;
    (eexists; split; [reflexivity |]); cbn; unfold heap_update; rewrite ?Nat.eqb_refl;
    (repeat split; try reflexivity);
    intros v Hv; apply Nat.eqb_neq in Hv; rewrite !Hv; reflexivity.
Qed.

(** *** Orientation of the panel objects *)

Lemma keeps_all_vertical_refl (st : St) : keeps_all_vertical st st.
Proof. unfold keeps_all_vertical. auto. Qed.

Lemma keeps_all_vertical_trans (a b c : St) :
  keeps_all_vertical a b -> keeps_all_vertical b c -> keeps_all_vertical a c.
Proof. unfold keeps_all_vertical. auto. Qed.

Lemma all_bind {A B} (m : M A) (k : A -> M B) :
  steps keeps_all_vertical m -> (forall a, steps keeps_all_vertical (k a)) ->
  steps keeps_all_vertical (bind m k).
Proof.
  intros Hm Hk. apply steps_bind; [ exact keeps_all_vertical_trans | exact Hm | exact Hk ].
Qed.

(** A computation that neither touches the heap nor the engine's orientation. *)
Lemma all_of_frame {A} (m : M A) :
  (forall st, pv_orientation (st_paneview (fst (m st))) = pv_orientation (st_paneview st)
              /\ st_heap (fst (m st)) = st_heap st) ->
  steps keeps_all_vertical m.
Proof.
  intros E st [Hv Hp]. destruct (E st) as [Eo Eh]. split.
  - change (pv_orientation (st_paneview (fst (m st))) = VERTICAL). rewrite Eo. exact Hv.
  - intros u. rewrite Eh. apply Hp.
Qed.

Ltac frame_kept := apply all_of_frame; intro; split; reflexivity.

Lemma all_emit e : steps keeps_all_vertical (emit e).
Proof. frame_kept. Qed.

Lemma all_set_core c : steps keeps_all_vertical (set_core c).
Proof. frame_kept. Qed.

Lemma all_setTimeout t : steps keeps_all_vertical (setTimeout t).
Proof. frame_kept. Qed.

Lemma all_set_paneview_vertical b c :
  steps keeps_all_vertical (set_paneview (Build_Paneview VERTICAL b c)).
Proof. intros st [_ Hp]. split; [reflexivity | exact Hp]. Qed.

Lemma all_new_PaneFramework i c hc h b :
  steps keeps_all_vertical (new_PaneFramework i c hc h b VERTICAL).
Proof.
  intros st [Hv Hp]. split; [exact Hv |]. intros u. cbn. unfold heap_update.
  destruct (Nat.eqb u (st_next st)); [reflexivity | apply Hp].
Qed.

(** A panel write that keeps the orientation the panel had. *)
Ltac panel_rewrite :=
  intros st [Hv Hp]; split; [exact Hv |]; intros v; cbn; unfold heap_update;
  repeat match goal with |- context [Nat.eqb ?a ?b] => destruct (Nat.eqb a b) end;
  apply Hp.

Lemma all_panel_init u p : steps keeps_all_vertical (panel_init u p).
Proof. panel_rewrite. Qed.

Lemma all_api_setExpanded u b : steps keeps_all_vertical (api_setExpanded u b).
Proof. panel_rewrite. Qed.

Lemma all_api_isExpanded u : steps keeps_all_vertical (api_isExpanded u).
Proof. frame_kept. Qed.

(** [view.orientation = this.paneview.orientation], then the rest. *)
Lemma all_orientation_from_engine {B} (u : nat) (k : unit -> M B) :
  (forall a, steps keeps_all_vertical (k a)) ->
  steps keeps_all_vertical
    (bind (gets st_paneview) (fun pv => bind (set_panel_orientation u (pv_orientation pv)) k)).
Proof.
  intros Hk st Hst. unfold bind at 1, gets.
  set (st1 := fst (set_panel_orientation u (pv_orientation (st_paneview st)) st)).
  assert (E : set_panel_orientation u (pv_orientation (st_paneview st)) st = (st1, Ok tt))
    by reflexivity.
  rewrite (bind_ok _ _ _ _ _ E). apply Hk.
  destruct Hst as [Hv Hp]. split; [exact Hv |]. intros v. subst st1. cbn. unfold heap_update.
  destruct (Nat.eqb v u); [exact Hv | apply Hp].
Qed.

Create HintDb all_db.
#[local] Hint Resolve all_emit all_set_core all_setTimeout all_set_paneview_vertical
  all_new_PaneFramework all_panel_init all_api_setExpanded all_api_isExpanded : all_db.
#[local] Hint Extern 1 (steps keeps_all_vertical (ret _)) =>
  apply steps_ret; exact keeps_all_vertical_refl : all_db.
#[local] Hint Extern 1 (steps keeps_all_vertical (lift _)) =>
  apply steps_lift; exact keeps_all_vertical_refl : all_db.
#[local] Hint Extern 1 (steps keeps_all_vertical (gets _)) =>
  apply steps_gets; exact keeps_all_vertical_refl : all_db.

Ltac all_steps :=
  repeat (first
    [ solve [ eauto with all_db ]
    | apply all_orientation_from_engine; intro
    | apply all_bind; [ | intro ]
    | progress cbv zeta
    | match goal with
      | |- steps _ (match ?x with _ => _ end) => destruct x
      | |- steps _ (let '(_, _) := ?x in _) => destruct x
      end ]).

Lemma all_paneview_ops :
  (forall u s i, steps keeps_all_vertical (paneview_addPane u s i)) /\
  (forall i, steps keeps_all_vertical (paneview_removePane i)) /\
  (forall f t, steps keeps_all_vertical (paneview_moveView f t)) /\
  (forall s o, steps keeps_all_vertical (paneview_layout s o)) /\
  steps keeps_all_vertical paneview_dispose.
Proof.
  refine (conj _ (conj _ (conj _ (conj _ _)))).
  - intros u s i. unfold paneview_addPane, core_now. all_steps.
  - intros i. unfold paneview_removePane, core_now. all_steps.
  - intros f t. unfold paneview_moveView, core_now. all_steps.
  - intros s o. unfold paneview_layout, core_now. all_steps.
  - unfold paneview_dispose. apply all_bind; [apply all_emit | intro].
    intros st [Hv Hp]. split; [exact Hv |]. intros v. cbn. unfold dispose_panels.
    destruct (existsb _ _); apply Hp.
Qed.

Lemma all_composite_ops :
  (forall i hc, steps keeps_all_vertical (make_header i hc)) /\
  (forall v, steps keeps_all_vertical (build_view v)) /\
  (forall q, steps keeps_all_vertical (run_queue q)).
Proof.
  refine (conj _ (conj _ _)).
  - intros i hc. unfold make_header. all_steps.
  - intros v. unfold build_view. all_steps.
  - intros q. induction q as [|[u p] q IH]; simpl; all_steps.
Qed.

Lemma exec_keeps_all_vertical (op : Op) (st : St) :
  all_vertical st -> all_vertical (exec op st).
Proof.
  destruct all_paneview_ops as (Ha & Hr & Hm & Hl & Hd).
  destruct all_composite_ops as (Hh & Hb & Hq).
  destruct op; simpl.
  - revert st. change (steps keeps_all_vertical (addPanel o)).
    unfold addPanel; all_steps.
  - revert st. change (steps keeps_all_vertical (removePanel panel)).
    unfold removePanel, getPanels; all_steps.
  - revert st. change (steps keeps_all_vertical (movePanel from to)).
    unfold movePanel; all_steps.
  - revert st. change (steps keeps_all_vertical (layout w h)).
    unfold layout; all_steps.
  - revert st. change (steps keeps_all_vertical resizeToFit).
    unfold resizeToFit, layout; all_steps.
  - revert st. change (steps keeps_all_vertical (fromJSON d defer)).
    unfold fromJSON, layout; all_steps.
    apply steps_mapM; [exact keeps_all_vertical_refl | exact keeps_all_vertical_trans | exact Hb].
  - intros Hv. unfold run_next_task. destruct (st_tasks st) as [|t ts]; [exact Hv |].
    apply Hq. exact Hv.
  - revert st. change (steps keeps_all_vertical (defaultHeader_click owner)).
    unfold defaultHeader_click, read_panel; all_steps.
  - auto.
Qed.

(** In every state the component can reach, not only the engine but every
    panel object has the orientation [VERTICAL]: [addPanel] sets a new
    panel's orientation from the engine's, and both constructions build
    panels [VERTICAL]. *)
Theorem reachable_panels_vertical (st : St) :
  reachable st ->
  pv_orientation (st_paneview st) = VERTICAL
  /\ forall u, pf_orientation (st_heap st u) = VERTICAL.
Proof.
  intros (parent & opts & ops & ->). unfold run_ops.
  assert (Hv : all_vertical (PaneviewComponent_new parent opts))
    by (split; [reflexivity | intros u; reflexivity]).
  revert Hv. generalize (PaneviewComponent_new parent opts) as s.
  induction ops as [|op ops IH]; intros s Hv; simpl; [exact Hv |].
  apply IH, exec_keeps_all_vertical, Hv.
Qed.

(** *** Fitting the parent *)

(** With a parent element of bounding box (w, h), [resizeToFit] reads the
    box and lays the (vertical) engine out at (h, w); nothing else changes. *)
Theorem resizeToFit_attached (st : St) (w h : Z) :
  reachable st -> st_parentRect st = Some (w, h) ->
  resizeToFit st =
    (with_paneview (Build_Paneview VERTICAL (pv_disposed (st_paneview st))
                      (engine_layout h w (pv_core (st_paneview st))))
       (with_trace (st_trace st ++ [EvReadBoundingRect; EvLayout h w]) st), Ok tt).
Proof.
  intros Hr Hp. pose proof (reachable_vertical st Hr) as Hv.
  change (pv_orientation (st_paneview st) = VERTICAL) in Hv.
  unfold resizeToFit, layout, paneview_layout, emit, core_now, set_core, gets, bind.
  rewrite Hp. cbn. rewrite Hv. cbn. rewrite Hv, <- app_assoc. reflexivity.
Qed.

(** *** Restoring a document *)

Lemma with_heap_same (st : St) : with_heap (st_heap st) (st_next st) st = st.
Proof. destruct st; reflexivity. Qed.

Lemma build_view_spec v (st : St) :
  view_resolves (st_options st) v = true ->
  exists p,
    build_view v st =
      (with_heap (heap_update (st_next st) p (st_heap st)) (S (st_next st)) st,
       Ok ((st_next st, spp_size v), (st_next st, serialized_init v)))
    /\ pf_id p = sd_id (spp_data v) /\ pf_initialized p = false.
Proof.
  unfold view_resolves. intros Hr. apply andb_true_iff in Hr as [Hb Hh].
  destruct (make_header_ok _ _ st Hh) as [h Eh].
  unfold build_view. cbv zeta.
  unfold bind at 1, gets. unfold bind at 1, lift.
  destruct (createComponent _ _ _ _) as [body|e]; [| discriminate].
  rewrite (bind_ok _ _ _ _ _ Eh).
  eexists; split; [reflexivity | split; reflexivity].
Qed.

Lemma mapM_build_view_spec (vs : list SerializedPaneviewPanel) (st : St) :
  forallb (view_resolves (st_options st)) vs = true ->
  exists hp,
    mapM build_view vs st =
      (with_heap hp (st_next st + List.length vs)%nat st,
       Ok (map (fun x => ((fst x, spp_size (snd x)), (fst x, serialized_init (snd x))))
               (combine (seq (st_next st) (List.length vs)) vs)))
    /\ (forall u, (u < st_next st)%nat -> hp u = st_heap st u)
    /\ map (fun u => pf_id (hp u)) (seq (st_next st) (List.length vs))
       = map (fun v => sd_id (spp_data v)) vs
    /\ (forall u, (st_next st <= u < st_next st + List.length vs)%nat ->
          pf_initialized (hp u) = false).
Proof.
  revert st. induction vs as [|v vs IH]; intros st Hr.
  - exists (st_heap st). simpl. rewrite Nat.add_0_r, with_heap_same.
    split; [reflexivity |]. split; [reflexivity |]. split; [reflexivity |]. intros u Hu; lia.
  - simpl in Hr. apply andb_true_iff in Hr as [Hv Hvs].
    destruct (build_view_spec v st Hv) as (p & Eb & Hid & Hin).
    set (st1 := with_heap (heap_update (st_next st) p (st_heap st)) (S (st_next st)) st) in *.
    destruct (IH st1 Hvs) as (hp & Em & Hlo & Hids & Hnew).
    exists hp. simpl mapM. rewrite (bind_ok _ _ _ _ _ Eb). cbv beta.
    rewrite (bind_ok _ _ _ _ _ Em).
    assert (En : (st_next st1 + List.length vs = st_next st + List.length (v :: vs))%nat)
      by (simpl; lia).
    split; [unfold ret; rewrite En; reflexivity |].
    split; [| split].
    + intros u Hu. rewrite Hlo by (simpl; lia). simpl. unfold heap_update.
      destruct (Nat.eqb_spec u (st_next st)); [lia | reflexivity].
    + simpl. f_equal; [| exact Hids].
      rewrite Hlo by (simpl; lia). simpl. unfold heap_update. rewrite Nat.eqb_refl. exact Hid.
    + intros u Hu. destruct (Nat.eq_dec u (st_next st)) as [-> | Hne].
      * rewrite Hlo by (simpl; lia). simpl. unfold heap_update. rewrite Nat.eqb_refl. exact Hin.
      * apply Hnew. simpl in *. lia.
Qed.

Lemma combine_views_fst (us : list nat) (vs : list SerializedPaneviewPanel) :
  map fst (map (fun x => ((fst x, spp_size (snd x)), (fst x, serialized_init (snd x))))
               (combine us vs))
  = combine us (map spp_size vs).
Proof.
  revert vs. induction us as [|u us IH]; intros [|v vs]; simpl; try reflexivity.
  now rewrite IH.
Qed.

Lemma combine_views_snd (us : list nat) (vs : list SerializedPaneviewPanel) :
  map snd (map (fun x => ((fst x, spp_size (snd x)), (fst x, serialized_init (snd x))))
               (combine us vs))
  = combine us (map serialized_init vs).
Proof.
  revert vs. induction us as [|u us IH]; intros [|v vs]; simpl; try reflexivity.
  now rewrite IH.
Qed.

Lemma map_fst_combine_le {A B} (us : list A) (ws : list B) :
  (List.length us <= List.length ws)%nat -> map fst (combine us ws) = us.
Proof.
  revert ws. induction us as [|u us IH]; intros [|w ws] Hl; simpl in *; try reflexivity.
  - lia.
  - rewrite IH by lia. reflexivity.
Qed.

(** The shape of a [fromJSON] call whose components all resolve: the old
    engine is disposed, the panels are built, the new engine is installed
    and laid out, then the queue runs or is deferred. *)
Lemma fromJSON_ok_shape (d : SerializedPaneview) (defer : option bool) (st : St) :
  forallb (view_resolves (st_options st)) (sp_views d) = true ->
  exists hp,
    fromJSON d defer st =
      (if truthy_bool defer
       then setTimeout (combine (new_panels d st) (map serialized_init (sp_views d)))
       else run_queue (combine (new_panels d st) (map serialized_init (sp_views d))))
      (with_paneview
         (Build_Paneview VERTICAL false
            (engine_layout (engine_size (new_core d st)) (engine_orthogonalSize (new_core d st))
               (new_core d st)))
         (with_trace ((st_trace st ++ [EvDisposeEngine])
                        ++ [EvLayout (engine_size (new_core d st))
                                     (engine_orthogonalSize (new_core d st))])
            (with_heap hp (st_next st + List.length (sp_views d))%nat st)))
    /\ (forall u, (u < st_next st)%nat ->
          hp u = dispose_panels (getPanes (pv_core (st_paneview st))) (st_heap st) u)
    /\ map (fun u => pf_id (hp u)) (new_panels d st) = map (fun v => sd_id (spp_data v)) (sp_views d)
    /\ (forall u, In u (new_panels d st) -> pf_initialized (hp u) = false).
Proof.
  intros Hr.
  set (st0 := fst (paneview_dispose st)).
  assert (E0 : paneview_dispose st = (st0, Ok tt)) by reflexivity.
  destruct (mapM_build_view_spec (sp_views d) st0 Hr) as (hp & Em & Hlo & Hids & Hnew).
  exists hp. split; [| split; [exact Hlo | split; [exact Hids |]]].
  - unfold fromJSON. rewrite (bind_ok _ _ _ _ _ E0). cbv beta.
    rewrite (bind_ok _ _ _ _ _ Em). cbv zeta.
    rewrite combine_views_fst, combine_views_snd.
    destruct (truthy_bool defer); reflexivity.
  - intros u Hu. apply Hnew. unfold new_panels in Hu. apply in_seq in Hu. exact Hu.
Qed.

Lemma run_queue_frame (q : list (nat * InitParams)) (s : St) :
  snd (run_queue q s) = Ok tt
  /\ st_paneview (fst (run_queue q s)) = st_paneview s
  /\ st_tasks (fst (run_queue q s)) = st_tasks s
  /\ st_next (fst (run_queue q s)) = st_next s
  /\ (forall v, ~ In v (map fst q) -> st_heap (fst (run_queue q s)) v = st_heap s v)
  /\ (forall v, pf_id (st_heap (fst (run_queue q s)) v) = pf_id (st_heap s v))
  /\ (forall v, In v (map fst q) -> pf_initialized (st_heap (fst (run_queue q s)) v) = true).
Proof.
  revert s. induction q as [|[u p] q IH]; intros s.
  - simpl. repeat split; try reflexivity. intros v [].
  - simpl run_queue.
    assert (Ei : panel_init u p s = (fst (panel_init u p s), Ok tt)) by reflexivity.
    rewrite (bind_ok _ _ _ _ _ Ei).
    destruct (IH (fst (panel_init u p s))) as (Hok & Hpv & Hts & Hnx & Hfr & Hid & Hin).
    split; [exact Hok |]. split; [exact Hpv |]. split; [exact Hts |]. split; [exact Hnx |].
    split; [| split].
    + intros v Hv. simpl in Hv. rewrite Hfr by tauto. cbn. unfold heap_update.
      destruct (Nat.eqb_spec v u) as [-> | _]; [tauto | reflexivity].
    + intros v. rewrite Hid. cbn. unfold heap_update.
      destruct (Nat.eqb_spec v u) as [-> | _]; reflexivity.
    + intros v Hv. destruct (in_dec Nat.eq_dec v (map fst q)) as [Hq | Hq].
      * exact (Hin v Hq).
      * simpl in Hv. destruct Hv as [<- | Hv]; [| contradiction].
        rewrite Hfr by exact Hq. cbn. unfold heap_update. rewrite Nat.eqb_refl. reflexivity.
Qed.

Lemma map_fst_new_queue (d : SerializedPaneview) (st : St) :
  map fst (combine (new_panels d st) (map serialized_init (sp_views d))) = new_panels d st.
Proof.
  apply map_fst_combine_le. unfold new_panels. rewrite length_seq, length_map. lia.
Qed.

(** Without deferral, [fromJSON] on a document whose components all resolve
    returns normally having initialised every panel it built, each exactly
    once, in the order of [data.views], after the disposal of the old
    engine and the one [layout] call; nothing is queued, and the i-th
    initialised panel carries the i-th view's id. *)
Theorem fromJSON_sync_init_order (d : SerializedPaneview) (defer : option bool) (st : St) :
  truthy_bool defer = false ->
  forallb (view_resolves (st_options st)) (sp_views d) = true ->
  snd (fromJSON d defer st) = Ok tt
  /\ st_tasks (fst (fromJSON d defer st)) = st_tasks st
  /\ (exists a b, st_trace (fst (fromJSON d defer st)) =
        st_trace st ++ [EvDisposeEngine; EvLayout a b] ++ map EvInit (new_panels d st))
  /\ map (fun u => pf_id (st_heap (fst (fromJSON d defer st)) u)) (new_panels d st)
     = map (fun v => sd_id (spp_data v)) (sp_views d)
  /\ Forall (fun u => pf_initialized (st_heap (fst (fromJSON d defer st)) u) = true)
            (new_panels d st).
Proof.
  intros Hd Hr. destruct (fromJSON_ok_shape d defer st Hr) as (hp & E & Hlo & Hids & Hnew).
  rewrite E, Hd.
  match goal with |- context [run_queue ?q ?s] =>
    destruct (run_queue_frame q s) as (Hok & Hpv & Hts & Hnx & Hfr & Hid & Hin);
    destruct (run_queue_trace q s) as (s' & Eq & Htr)
  end.
  rewrite Eq in *. simpl in *.
  split; [exact Hok |]. split; [exact Hts |]. split; [| split].
  - do 2 eexists. rewrite Htr, <- (map_map fst EvInit), map_fst_new_queue.
    rewrite <- !app_assoc. reflexivity.
  - rewrite <- Hids. apply map_ext. intros u. apply Hid.
  - apply Forall_forall. intros u Hu. apply Hin. rewrite map_fst_new_queue. exact Hu.
Qed.

(** In both modes, [fromJSON] on a document whose components all resolve
    installs a live vertical engine built from the document's size and the
    new panels with the views' sizes, and lays it out once at that engine's
    own size and orthogonal size ([this.layout(this.width, this.height)]
    reads the new engine): the old engine's dimensions are not carried over. *)
Theorem fromJSON_relayout_own_size (d : SerializedPaneview) (defer : option bool) (st : St) :
  forallb (view_resolves (st_options st)) (sp_views d) = true ->
  st_paneview (fst (fromJSON d defer st)) =
    Build_Paneview VERTICAL false
      (engine_layout (engine_size (new_core d st)) (engine_orthogonalSize (new_core d st))
         (new_core d st))
  /\ exists rest, st_trace (fst (fromJSON d defer st)) =
       st_trace st ++ [EvDisposeEngine; EvLayout (engine_size (new_core d st))
                                                 (engine_orthogonalSize (new_core d st))] ++ rest.
Proof.
  intros Hr. destruct (fromJSON_ok_shape d defer st Hr) as (hp & E & _).
  rewrite E. destruct (truthy_bool defer).
  - split; [reflexivity |]. exists []. simpl. rewrite <- !app_assoc. reflexivity.
  - match goal with |- context [run_queue ?q ?s] =>
      destruct (run_queue_frame q s) as (_ & Hpv & _);
      destruct (run_queue_trace q s) as (s' & Eq & Htr)
    end.
    rewrite Eq in *. simpl in *. split; [exact Hpv |].
    eexists. rewrite Htr, <- !app_assoc. reflexivity.
Qed.

(** With deferral, the one task [fromJSON] queues pairs each new panel, in
    document order, with the [init] parameters read from its view:
    [data.params || {}], [minimumSize] and [maximumSize] as body bounds,
    [!!view.expanded] (collapsed when the flag is absent) and the title;
    and when [fromJSON] returns, none of these panels is initialised yet. *)
Theorem fromJSON_deferred_init_params (d : SerializedPaneview) (defer : option bool) (st : St) :
  truthy_bool defer = true ->
  forallb (view_resolves (st_options st)) (sp_views d) = true ->
  st_tasks (fst (fromJSON d defer st))
    = st_tasks st ++ [combine (new_panels d st) (map serialized_init (sp_views d))]
  /\ Forall (fun u => pf_initialized (st_heap (fst (fromJSON d defer st)) u) = false)
            (new_panels d st).
Proof.
  intros Hd Hr. destruct (fromJSON_ok_shape d defer st Hr) as (hp & E & Hlo & Hids & Hnew).
  rewrite E, Hd. split; [reflexivity |].
  apply Forall_forall. exact Hnew.
Qed.

Lemma heap_grows_refl (st : St) : heap_grows st st.
Proof. split; [lia | reflexivity]. Qed.

Lemma heap_grows_trans (a b c : St) : heap_grows a b -> heap_grows b c -> heap_grows a c.
Proof.
  intros [Hab Eab] [Hbc Ebc]. split; [lia |]. intros u Hu.
  rewrite Ebc by lia. apply Eab, Hu.
Qed.

Lemma grows_build_view v : steps heap_grows (build_view v).
Proof.
  unfold build_view, make_header. cbv zeta.
  repeat (first
    [ apply steps_ret; exact heap_grows_refl
    | apply steps_lift; exact heap_grows_refl
    | apply steps_gets; exact heap_grows_refl
    | apply steps_bind; [exact heap_grows_trans | | intro]
    | match goal with |- steps _ (match ?x with _ => _ end) => destruct x end ]).
  intros st. split; [simpl; lia |]. intros u Hu. cbn. unfold heap_update.
  destruct (Nat.eqb_spec u (st_next st)); [lia | reflexivity].
Qed.

Lemma dispose_panels_spec (us : list nat) (hp : nat -> PaneFramework) (u : nat) :
  (In u us -> dispose_panels us hp u = dispose_panel (hp u))
  /\ (~ In u us -> dispose_panels us hp u = hp u).
Proof.
  unfold dispose_panels. split; intros Hu.
  - replace (existsb (Nat.eqb u) us) with true; [reflexivity |].
    symmetry. apply existsb_exists. exists u. split; [exact Hu | apply Nat.eqb_refl].
  - destruct (existsb (Nat.eqb u) us) eqn:E; [| reflexivity].
    apply existsb_exists in E as (x & Hx & Ex). apply Nat.eqb_eq in Ex. subst x.
    contradiction.
Qed.

(** Whether [fromJSON] returns or throws, each panel object of the previous
    generation ends as the teardown left it: a panel the old engine held is
    marked disposed and otherwise unchanged, any other old panel object is
    unchanged, and none is initialised again. *)
Theorem fromJSON_disposes_old_panels (d : SerializedPaneview) (defer : option bool) (st : St)
  (u : nat) :
  (u < st_next st)%nat ->
  (In u (getPanes (pv_core (st_paneview st))) ->
     st_heap (fst (fromJSON d defer st)) u = dispose_panel (st_heap st u))
  /\ (~ In u (getPanes (pv_core (st_paneview st))) ->
     st_heap (fst (fromJSON d defer st)) u = st_heap st u).
Proof.
  intros Hu.
  assert (E : st_heap (fst (fromJSON d defer st)) u
              = dispose_panels (getPanes (pv_core (st_paneview st))) (st_heap st) u).
  { destruct (forallb (view_resolves (st_options st)) (sp_views d)) eqn:Hr.
    - destruct (fromJSON_ok_shape d defer st Hr) as (hp & E & Hlo & _).
      rewrite E. destruct (truthy_bool defer).
      + apply Hlo, Hu.
      + match goal with |- context [run_queue ?q ?s] =>
          destruct (run_queue_frame q s) as (_ & _ & _ & _ & Hfr & _)
        end.
        rewrite Hfr; [apply Hlo, Hu |].
        rewrite map_fst_new_queue. unfold new_panels. rewrite in_seq. lia.
    - set (st0 := fst (paneview_dispose st)).
      assert (E0 : paneview_dispose st = (st0, Ok tt)) by reflexivity.
      destruct (mapM_build_view_fail (sp_views d) st0 Hr) as (st1 & k & Em & _).
      assert (Hg : heap_grows st0 (fst (mapM build_view (sp_views d) st0))).
      { apply steps_mapM; [exact heap_grows_refl | exact heap_grows_trans | exact grows_build_view]. }
      rewrite Em in Hg. destruct Hg as [_ Hg].
      unfold fromJSON. rewrite (bind_ok _ _ _ _ _ E0). cbv beta.
      rewrite (bind_throw _ _ _ _ _ Em). simpl. apply Hg, Hu. }
  rewrite E. apply dispose_panels_spec.
Qed.

End Properties.

(** *** Laying out and reading the dimensions back *)

Section EngineLaws.

Context {Core : Type} `{LayoutEngine Core}.

(** The engine reports the size and orthogonal size it was last laid out at. *)
Hypothesis engine_layout_size : forall s o c, engine_size (engine_layout s o c) = s.
Hypothesis engine_layout_orthogonalSize :
  forall s o c, engine_orthogonalSize (engine_layout s o c) = o.

(** With an engine that reports the dimensions it was laid out at, the
    [width] and [height] getters read back what [layout(width, height)] was
    given, in either orientation. *)
Theorem layout_then_dimensions (w h : Z) (st : @St Core) :
  width (fst (layout w h st)) = w /\ height (fst (layout w h st)) = h.
Proof.
  unfold layout, paneview_layout, emit, core_now, set_core, gets, bind, width, height.
  destruct (pv_orientation (st_paneview st)) eqn:E; cbn; rewrite E; cbn;
    rewrite engine_layout_size, engine_layout_orthogonalSize; split; reflexivity.
Qed.

End EngineLaws.

(** *** Witnesses of the further properties *)

Lemma removePanel_first_index_witness :
  In 1%nat (getPanes (pv_core (st_paneview two_panels)))
  /\ exists pre post,
       getPanes (pv_core (st_paneview two_panels)) = pre ++ 1%nat :: post /\ ~ In 1%nat pre
       /\ removePanel 1 two_panels = paneview_removePane (Z.of_nat (List.length pre)) two_panels.
Proof.
  assert (Hi : In 1%nat (getPanes (pv_core (st_paneview two_panels))))
    by (vm_compute; right; left; reflexivity).
  split; [exact Hi |]. exact (removePanel_first_index 1 two_panels Hi).
Defined.

Lemma addPanel_unresolved_noop_witness :
  options_resolve (st_options two_panels) unresolved_options = false
  /\ exists k, addPanel unresolved_options two_panels = (two_panels, Throw (ResolutionError k)).
Proof.
  assert (Hr : options_resolve (st_options two_panels) unresolved_options = false)
    by (vm_compute; reflexivity).
  split; [exact Hr |]. exact (addPanel_unresolved_noop unresolved_options two_panels Hr).
Defined.

Lemma addPanel_success_witness :
  options_resolve (st_options two_panels) empty_header_options = true
  /\ addPane 2 Distribute None (pv_core (st_paneview two_panels)) = Ok three_even
  /\ is_ok (snd (addPanel empty_header_options two_panels)) = true.
Proof.
  assert (Hr : options_resolve (st_options two_panels) empty_header_options = true)
    by (vm_compute; reflexivity).
  assert (Ha : addPane 2 Distribute None (pv_core (st_paneview two_panels)) = Ok three_even)
    by (vm_compute; reflexivity).
  split; [exact Hr |]. split; [exact Ha |].
  exact (proj1 (addPanel_success empty_header_options two_panels three_even Hr Ha)).
Defined.

Lemma addPanel_engine_error_witness :
  options_resolve (st_options two_panels) at_index_five = true
  /\ addPane 2 Distribute (Some 5) (pv_core (st_paneview two_panels))
     = Throw (EngineError "Index out of bounds")
  /\ exists st', addPanel at_index_five two_panels = (st', Throw (EngineError "Index out of bounds")).
Proof.
  assert (Hr : options_resolve (st_options two_panels) at_index_five = true)
    by (vm_compute; reflexivity).
  assert (Ha : addPane 2 Distribute (Some 5) (pv_core (st_paneview two_panels))
               = Throw (EngineError "Index out of bounds"))
    by (vm_compute; reflexivity).
  split; [exact Hr |]. split; [exact Ha |].
  destruct (addPanel_engine_error at_index_five two_panels _ Hr Ha) as (st' & E & _).
  exists st'. exact E.
Defined.

Lemma reachable_panels_vertical_witness :
  reachable two_panels /\ pf_orientation (st_heap two_panels 1) = VERTICAL.
Proof.
  split; [exact two_panels_reachable |].
  exact (proj2 (reachable_panels_vertical two_panels two_panels_reachable) 1%nat).
Defined.

Lemma resizeToFit_attached_witness :
  reachable two_panels /\ st_parentRect two_panels = Some (300, 600)
  /\ snd (resizeToFit two_panels) = Ok tt.
Proof.
  assert (Hp : st_parentRect two_panels = Some (300, 600)) by (vm_compute; reflexivity).
  split; [exact two_panels_reachable |]. split; [exact Hp |].
  rewrite (resizeToFit_attached two_panels 300 600 two_panels_reachable Hp). reflexivity.
Defined.

Lemma fromJSON_sync_init_order_witness :
  truthy_bool None = false
  /\ forallb (view_resolves (st_options two_panels)) (sp_views (toJSON two_panels)) = true
  /\ snd (fromJSON (toJSON two_panels) None two_panels) = Ok tt.
Proof.
  assert (Hr : forallb (view_resolves (st_options two_panels)) (sp_views (toJSON two_panels)) = true)
    by (vm_compute; reflexivity).
  split; [reflexivity |]. split; [exact Hr |].
  exact (proj1 (fromJSON_sync_init_order _ None _ eq_refl Hr)).
Defined.

Lemma fromJSON_relayout_own_size_witness :
  forallb (view_resolves (st_options two_panels)) (sp_views (toJSON two_panels)) = true
  /\ pv_disposed (st_paneview (fst (fromJSON (toJSON two_panels) (Some true) two_panels))) = false.
Proof.
  assert (Hr : forallb (view_resolves (st_options two_panels)) (sp_views (toJSON two_panels)) = true)
    by (vm_compute; reflexivity).
  split; [exact Hr |].
  rewrite (proj1 (fromJSON_relayout_own_size _ (Some true) _ Hr)). reflexivity.
Defined.

Lemma fromJSON_deferred_init_params_witness :
  truthy_bool (Some true) = true
  /\ forallb (view_resolves (st_options two_panels)) (sp_views (toJSON two_panels)) = true
  /\ st_tasks (fst (fromJSON (toJSON two_panels) (Some true) two_panels))
     = st_tasks two_panels ++ [combine (new_panels (toJSON two_panels) two_panels)
                                  (map serialized_init (sp_views (toJSON two_panels)))].
Proof.
  assert (Hr : forallb (view_resolves (st_options two_panels)) (sp_views (toJSON two_panels)) = true)
    by (vm_compute; reflexivity).
  split; [reflexivity |]. split; [exact Hr |].
  exact (proj1 (fromJSON_deferred_init_params _ (Some true) _ eq_refl Hr)).
Defined.

Lemma fromJSON_disposes_old_panels_witness :
  (0 < st_next two_panels)%nat
  /\ In 0%nat (getPanes (pv_core (st_paneview two_panels)))
  /\ st_heap (fst (fromJSON bad_document None two_panels)) 0 = dispose_panel (st_heap two_panels 0).
Proof.
  assert (Hu : (0 < st_next two_panels)%nat) by (vm_compute; lia).
  assert (Hi : In 0%nat (getPanes (pv_core (st_paneview two_panels))))
    by (vm_compute; left; reflexivity).
  split; [exact Hu |]. split; [exact Hi |].
  exact (proj1 (fromJSON_disposes_old_panels bad_document None two_panels 0 Hu) Hi).
Defined.

Lemma layout_then_dimensions_witness :
  (forall s o (c : ListEngine.Core), engine_size (engine_layout s o c) = s)
  /\ (forall s o (c : ListEngine.Core), engine_orthogonalSize (engine_layout s o c) = o)
  /\ width (fst (layout 250 700 two_panels)) = 250
  /\ height (fst (layout 250 700 two_panels)) = 700.
Proof.
  assert (Hs : forall s o (c : ListEngine.Core), engine_size (engine_layout s o c) = s)
    by (intros; reflexivity).
  assert (Ho : forall s o (c : ListEngine.Core), engine_orthogonalSize (engine_layout s o c) = o)
    by (intros; reflexivity).
  split; [exact Hs |]. split; [exact Ho |].
  exact (layout_then_dimensions Hs Ho 250 700 two_panels).
Defined.
